(** * The data-cleaning pipeline of [Automation/automation_app.py]

    [clean_data] takes a pandas DataFrame, renames its columns, drops
    duplicate rows, coerces the [amount] column to numbers, title-cases the
    [status] column, parses the [date] column and drops the rows whose date
    did not parse.  It returns the cleaned frame and a list of log lines.

    The development has three layers:
    - [PyStr]: the Python string methods the pipeline calls
      ([str.strip], [str.lower], [str.replace], [str.title]);
    - the pandas layer: cells, frames, and the Series/DataFrame operations
      the pipeline calls, over a store of frame objects, so that in-place
      updates ([df.columns = ...], [df['amount'] = ...]) and fresh results
      ([df.drop_duplicates()], [df.dropna(...)]) are told apart;
    - [clean_data] itself, written statement by statement in a state and
      exception monad over that store, and its functional reading
      [clean_table].

    Around it: [generate_messy_data], the demo data of the application,
    [on_run_button], what the application computes from the cleaned
    frame, and, from [streamlit/app.py], the customer tiers of
    [segment_me]. *)

From Stdlib Require Import List String Ascii Bool Arith Lia ZArith.
From Stdlib Require Import DecimalString DecimalPos DecimalNat DecimalZ.
Import ListNotations.

Local Open Scope string_scope.
Local Open Scope list_scope.
Local Open Scope nat_scope.

(* [length] is the length of a list; a string's is [String.length]. *)
Local Abbreviation length := Datatypes.length.

(* ================================================================== *)
(** ** Python strings *)
(* ================================================================== *)

(** A Python [str] of ASCII characters is held as the string of these
    characters, and [ascii_text] says that a string is one.  On such
    strings the functions below are the methods of Python: codes 65..90
    are the upper-case letters, 97..122 the lower-case ones, the rest has
    no case, and white space is what [str.isspace] accepts below 128:
    tab, line feed, vertical tab, form feed, carriage return, the four
    separators 28..31 and the space.  Python's methods follow the Unicode
    tables on the other characters ([str.lower] of ["É"], [str.strip] of a
    no-break space); these are not modelled, and a statement that says
    what a method returns says so of ASCII strings. *)
Module PyStr.

Definition is_ascii (c : ascii) : bool := nat_of_ascii c <? 128.

Definition is_upper (c : ascii) : bool :=
  let n := nat_of_ascii c in (65 <=? n) && (n <=? 90).

Definition is_lower (c : ascii) : bool :=
  let n := nat_of_ascii c in (97 <=? n) && (n <=? 122).

Definition is_cased (c : ascii) : bool := is_upper c || is_lower c.

Definition is_space (c : ascii) : bool :=
  let n := nat_of_ascii c in
  ((9 <=? n) && (n <=? 13)) || ((28 <=? n) && (n <=? 32)).

Definition to_lower (c : ascii) : ascii :=
  if is_upper c then ascii_of_nat (nat_of_ascii c + 32) else c.

Definition to_upper (c : ascii) : ascii :=
  if is_lower c then ascii_of_nat (nat_of_ascii c - 32) else c.

Fixpoint smap (f : ascii -> ascii) (s : string) : string :=
  match s with
  | EmptyString => EmptyString
  | String c s' => String (f c) (smap f s')
  end.

Fixpoint sforall (p : ascii -> bool) (s : string) : bool :=
  match s with
  | EmptyString => true
  | String c s' => p c && sforall p s'
  end.

(** The strings of ASCII characters. *)
Definition ascii_text (s : string) : bool := sforall is_ascii s.

(** [s.lower()] *)
Definition lower (s : string) : string := smap to_lower s.

(** [s.lstrip()] *)
Fixpoint lstrip (s : string) : string :=
  match s with
  | EmptyString => EmptyString
  | String c s' => if is_space c then lstrip s' else s
  end.

(** [s.rstrip()]: a character is dropped when it is white space and
    everything after it has been dropped. *)
Fixpoint rstrip (s : string) : string :=
  match s with
  | EmptyString => EmptyString
  | String c s' =>
      match rstrip s' with
      | EmptyString => if is_space c then EmptyString else String c EmptyString
      | r => String c r
      end
  end.

(** [s.strip()] *)
Definition strip (s : string) : string := rstrip (lstrip s).

(** [s.replace(old, new)] for a one-character [old], the only way the
    pipeline calls it ([' '] and [','], which mean the same read as a
    regular expression). *)
Fixpoint replace (old : ascii) (new : string) (s : string) : string :=
  match s with
  | EmptyString => EmptyString
  | String c s' =>
      if Ascii.eqb c old then (new ++ replace old new s')%string
      else String c (replace old new s')
  end.

(** [s.title()], as CPython computes it: one pass that remembers whether
    the previous character was cased; a character after a cased one is
    lower-cased, any other is upper-cased. *)
Fixpoint title_from (previous_is_cased : bool) (s : string) : string :=
  match s with
  | EmptyString => EmptyString
  | String c s' =>
      String (if previous_is_cased then to_lower c else to_upper c)
             (title_from (is_cased c) s')
  end.

Definition title (s : string) : string := title_from false s.



(** [str(n)] for a non-negative count, as an f-string prints it. *)
Definition str_of_nat (n : nat) : string :=
  NilEmpty.string_of_uint (Nat.to_uint n).


(** Whether a string starts, or ends, with white space. *)
Definition starts_space (s : string) : bool :=
  match s with
  | EmptyString => false
  | String c _ => is_space c
  end.

Fixpoint ends_space (s : string) : bool :=
  match s with
  | EmptyString => false
  | String c EmptyString => is_space c
  | String _ s' => ends_space s'
  end.

(** The one-character replacement of the header block, as a map. *)
Definition space_to_underscore (c : ascii) : ascii :=
  if Ascii.eqb c " " then "_"%char else c.

(** *** Facts about single characters, read off the 256 of them *)

Ltac by_cases_on c :=
  destruct c as [[] [] [] [] [] [] [] []]; (reflexivity || discriminate).

Lemma is_upper_to_lower c : is_upper (to_lower c) = false.
Proof. by_cases_on c. Qed.

Lemma to_lower_idem c : to_lower (to_lower c) = to_lower c.
Proof. by_cases_on c. Qed.

Lemma to_upper_idem c : to_upper (to_upper c) = to_upper c.
Proof. by_cases_on c. Qed.

Lemma is_cased_to_lower c : is_cased (to_lower c) = is_cased c.
Proof. by_cases_on c. Qed.

Lemma is_cased_to_upper c : is_cased (to_upper c) = is_cased c.
Proof. by_cases_on c. Qed.

Lemma is_space_to_lower c : is_space (to_lower c) = is_space c.
Proof. by_cases_on c. Qed.

Lemma is_upper_underscore c : is_upper (space_to_underscore (to_lower c)) = false.
Proof. by_cases_on c. Qed.

Lemma space_to_underscore_not_space c :
  Ascii.eqb (space_to_underscore c) " " = false.
Proof. by_cases_on c. Qed.

Lemma is_space_underscore c :
  is_space c = false -> is_space (space_to_underscore c) = false.
Proof. by_cases_on c. Qed.





Lemma cased_is_ascii c : is_cased c = true -> is_ascii c = true.
Proof. by_cases_on c. Qed.

Lemma space_is_ascii c : is_space c = true -> is_ascii c = true.
Proof. by_cases_on c. Qed.

Lemma to_lower_fix c : is_upper c = false -> to_lower c = c.
Proof. unfold to_lower. now intros ->. Qed.

Lemma space_to_underscore_fix c :
  Ascii.eqb c " " = false -> space_to_underscore c = c.
Proof. unfold space_to_underscore. now intros ->. Qed.

(** *** Facts about strings *)

Lemma replace_space_smap s : replace " " "_" s = smap space_to_underscore s.
Proof.
  induction s as [|c s IH]; simpl; trivial.
  unfold space_to_underscore at 1.
  destruct (Ascii.eqb c " "); simpl; now rewrite IH.
Qed.

Lemma smap_smap f g s : smap g (smap f s) = smap (fun c => g (f c)) s.
Proof. induction s as [|c s IH]; simpl; trivial. now rewrite IH. Qed.

Lemma smap_fix f p s :
  (forall c, p c = true -> f c = c) -> sforall p s = true -> smap f s = s.
Proof.
  intro Hf. induction s as [|c s IH]; simpl; trivial.
  intro H. apply andb_prop in H as [Hc Hs].
  now rewrite (Hf c Hc), IH.
Qed.

Lemma sforall_smap f p s :
  (forall c, p (f c) = true) -> sforall p (smap f s) = true.
Proof.
  intro H. induction s as [|c s IH]; simpl; trivial. now rewrite H, IH.
Qed.

Lemma length_smap f s : String.length (smap f s) = String.length s.
Proof. induction s as [|c s IH]; simpl; trivial. now rewrite IH. Qed.

Lemma starts_space_smap f s :
  (forall c, is_space c = false -> is_space (f c) = false) ->
  starts_space s = false -> starts_space (smap f s) = false.
Proof. intro H. destruct s; simpl; auto. Qed.

Lemma ends_space_smap f s :
  (forall c, is_space c = false -> is_space (f c) = false) ->
  ends_space s = false -> ends_space (smap f s) = false.
Proof.
  intro H. induction s as [|c s IH]; simpl; trivial.
  destruct s as [|c' s']; simpl in *; auto.
Qed.

Lemma starts_space_lstrip s : starts_space (lstrip s) = false.
Proof.
  induction s as [|c s IH]; simpl; trivial.
  destruct (is_space c) eqn:E; simpl; trivial.
Qed.

Lemma ends_space_rstrip s : ends_space (rstrip s) = false.
Proof.
  induction s as [|c s IH]; simpl; trivial.
  destruct (rstrip s) as [|c' r] eqn:E.
  - destruct (is_space c) eqn:Ec; simpl; trivial.
  - exact IH.
Qed.

Lemma starts_space_rstrip s :
  starts_space s = false -> starts_space (rstrip s) = false.
Proof.
  destruct s as [|c s]; simpl; trivial.
  intro Hc. destruct (rstrip s); simpl; trivial. now rewrite Hc.
Qed.

Lemma lstrip_fix s : starts_space s = false -> lstrip s = s.
Proof. destruct s as [|c s]; simpl; trivial. now intros ->. Qed.

Lemma rstrip_fix s : ends_space s = false -> rstrip s = s.
Proof.
  induction s as [|c s IH]; simpl; trivial.
  destruct s as [|c' s'].
  - simpl. now intros ->.
  - intro H. rewrite (IH H). reflexivity.
Qed.

Lemma strip_fix s :
  starts_space s = false -> ends_space s = false -> strip s = s.
Proof. intros H1 H2. unfold strip. now rewrite (lstrip_fix s H1), rstrip_fix. Qed.

Lemma strip_clean s :
  starts_space (strip s) = false /\ ends_space (strip s) = false.
Proof.
  unfold strip. split.
  - apply starts_space_rstrip, starts_space_lstrip.
  - apply ends_space_rstrip.
Qed.

(** *** Title case *)

Lemma title_from_idem b s : title_from b (title_from b s) = title_from b s.
Proof.
  revert b; induction s as [|c s IH]; intro b; simpl; trivial.
  destruct b.
  - now rewrite to_lower_idem, is_cased_to_lower, IH.
  - now rewrite to_upper_idem, is_cased_to_upper, IH.
Qed.

Lemma title_idem s : title (title s) = title s.
Proof. apply title_from_idem. Qed.






(** *** What [strip] takes away *)







(** *** Printing a count *)

Lemma str_of_nat_inj a b : str_of_nat a = str_of_nat b -> a = b.
Proof.
  unfold str_of_nat. intro H.
  apply (f_equal NilEmpty.uint_of_string) in H.
  rewrite !NilEmpty.usu in H. injection H as H.
  apply (f_equal Nat.of_uint) in H.
  now rewrite !DecimalNat.Unsigned.of_to in H.
Qed.

End PyStr.

(* ================================================================== *)
(** ** Cells, frames and the pandas operations of the pipeline *)
(* ================================================================== *)

Inductive Exn : Type :=
| AttributeError   (* no [.str] accessor on this object *)
| KeyError         (* no such column label *)
| TypeError
| ValueError.

(** What a call does: it returns a value or raises. *)
Inductive Outcome (A : Type) : Type :=
| Returns (a : A)
| Raises (e : Exn).

Arguments Returns {A} a.
Arguments Raises {A} e.

Section Pandas.

#[local] Set Default Proof Using "Type".

(** *** What pandas and Python supply

    The embedding follows pandas 2 (from 1.5 on for the duplicates of a
    frame of one column).  The numeric values (every int and float but
    NaN), the timestamps, and the library routines on them are taken as
    they come:
    - [str_of_num], [str_of_day]: Python's [str] of a number, a timestamp;
    - [parse_number col c]: [pd.to_numeric] under [errors='coerce'] of the
      cell [c] of the column [col], [None] when the result is NaN; it
      sees the column because pandas types the result as a whole, and
      reads every value as a float64 once one value is no int64;
    - [parse_datetime col c]: [pd.to_datetime] under [errors='coerce'] of
      the cell [c] (a text or a number) of the column [col], [None] when
      the result is NaT; it sees the column because pandas 2 guesses one
      format from the first value and parses the others against it;
    - [str_accessor_ok col]: whether pandas grants the [.str] accessor on
      a column of the frame holding [col] (it goes by the dtype of the
      column and, for dtype object, by the kind of the values);
    - [copy_on_write]: the option [pd.options.mode.copy_on_write] of
      pandas 2, off by default. *)
Variable Num : Type.
Variable Day : Type.
Variable Num_eq_dec : forall x y : Num, {x = y} + {x <> y}.
Variable Day_eq_dec : forall x y : Day, {x = y} + {x <> y}.
Variable zero : Num.
Variable str_of_num : Num -> string.
Variable str_of_day : Day -> string.
Variable copy_on_write : bool.

(** The three values pandas counts as not available. *)
Inductive NA : Type :=
| PyNone   (* None *)
| NaN      (* float('nan') *)
| NaT.     (* pd.NaT *)

(** A cell value. *)
Inductive Cell : Type :=
| Text (s : string)
| Number (x : Num)
| Date (d : Day)
| Missing (k : NA).

Variable parse_number : list Cell -> Cell -> option Num.
Variable parse_datetime : list Cell -> Cell -> option Day.
Variable str_accessor_ok : list Cell -> bool.

Definition Row : Type := list Cell.

(** A DataFrame: the column labels, left to right, and the rows, top to
    bottom, each row holding one cell per column. *)
Record DataFrame : Type := mkFrame {
  columns : list string;
  rows : list Row
}.

(** Every row has one cell per column, as in any frame pandas builds. *)
Definition well_formed (d : DataFrame) : Prop :=
  Forall (fun r => length r = length (columns d)) (rows d).

Definition NA_eq_dec (a b : NA) : {a = b} + {a <> b}.
Proof. decide equality. Defined.

Definition Cell_eq_dec (a b : Cell) : {a = b} + {a <> b}.
Proof using Num_eq_dec Day_eq_dec.
  decide equality; [apply string_dec | apply NA_eq_dec].
Defined.

Definition Row_eq_dec : forall a b : Row, {a = b} + {a <> b} :=
  list_eq_dec Cell_eq_dec.

Definition is_text (c : Cell) : bool :=
  match c with Text _ => true | _ => false end.
Definition is_number (c : Cell) : bool :=
  match c with Number _ => true | _ => false end.
Definition is_date (c : Cell) : bool :=
  match c with Date _ => true | _ => false end.

(** [pd.isna] *)
Definition isna (c : Cell) : bool :=
  match c with Missing _ => true | _ => false end.

(** A text of ASCII characters, or no text. *)
Definition ascii_cell (c : Cell) : bool :=
  match c with Text s => PyStr.ascii_text s | _ => true end.

(** What some theorems ask of [.str], each where it says so: pandas
    grants it on a column that holds a string, whatever else it holds
    (the values are then found to be strings or mixed). *)
Hypothesis str_accessor_text :
  forall v, existsb is_text v = true -> str_accessor_ok v = true.

(** Propositional goals are settled without the library routines in the
    context. *)
Ltac ptauto :=
  try clear str_accessor_text;
  try clear str_accessor_ok; try clear parse_datetime;
  try clear parse_number; try clear copy_on_write;
  try clear str_of_day; try clear str_of_num;
  try clear zero; tauto.

(** *** Columns of a frame, by position *)

(** The positions of the label [name] among the column labels. *)
Fixpoint positions_from (k : nat) (name : string) (cols : list string)
  : list nat :=
  match cols with
  | [] => []
  | c :: cs =>
      if String.eqb c name then k :: positions_from (S k) name cs
      else positions_from (S k) name cs
  end.

Definition positions (name : string) (cols : list string) : list nat :=
  positions_from 0 name cols.

(** [name in df.columns] *)
Definition contains (name : string) (cols : list string) : bool :=
  existsb (fun c => String.eqb c name) cols.

(** The cell [i] of a row (NaN past its end). *)
Definition cell (r : Row) (i : nat) : Cell := nth i r (Missing NaN).

(** The row with its cell [i] replaced (a row without a cell [i] is left
    as it is). *)
Fixpoint set_cell (i : nat) (c : Cell) (r : Row) : Row :=
  match r, i with
  | [], _ => []
  | _ :: r', O => c :: r'
  | x :: r', S i' => x :: set_cell i' c r'
  end.

Definition column_values (i : nat) (rs : list Row) : list Cell :=
  map (fun r => cell r i) rs.

(** Column [i] overwritten, top to bottom, with [values] (NaN where
    [values] runs out, as index alignment gives). *)
Fixpoint assign_column (i : nat) (values : list Cell) (rs : list Row)
  : list Row :=
  match rs with
  | [] => []
  | r :: rs' => set_cell i (hd (Missing NaN) values) r
                :: assign_column i (tl values) rs'
  end.

(** One function applied to every cell of column [i]. *)
Definition apply_column (i : nat) (f : Cell -> Cell) (rs : list Row)
  : list Row :=
  map (fun r => set_cell i (f (cell r i)) r) rs.

(** *** Series methods, cell by cell *)

(** [str] of a value that is not available. *)
Definition str_of_na (k : NA) : string :=
  match k with
  | PyNone => "None"
  | NaN => "nan"
  | NaT => "NaT"
  end.

(** [str(c)] *)
Definition str_of_cell (c : Cell) : string :=
  match c with
  | Text s => s
  | Number x => str_of_num x
  | Date d => str_of_day d
  | Missing k => str_of_na k
  end.

(** [Series.astype(str)]: every value becomes its [str]. *)
Definition astype_str_cell (c : Cell) : Cell := Text (str_of_cell c).

(** A method of [.str] at one cell of the column [col] it is called on.
    pandas maps the strings, puts NaN for any other value that is there,
    and passes None, NaN and NaT through as they are.  The result is a
    column of objects; when it holds no string and no NaT, and some value
    of [col] was there, pandas converts it to float64, where None is NaN
    as well. *)
Definition str_keeps_na (col : list Cell) : bool :=
  existsb is_text col || forallb isna col
  || existsb (fun c => match c with Missing NaT => true | _ => false end) col.

Definition str_method (f : string -> string) (col : list Cell) (c : Cell)
  : Cell :=
  match c with
  | Text s => Text (f s)
  | Missing k => if str_keeps_na col then Missing k else Missing NaN
  | _ => Missing NaN
  end.

(** [Series.str.replace(old, new)] *)
Definition str_replace_cell (old : ascii) (new : string)
  : list Cell -> Cell -> Cell :=
  str_method (PyStr.replace old new).

(** [Series.str.title()] *)
Definition str_title_cell : list Cell -> Cell -> Cell :=
  str_method PyStr.title.

(** [pd.to_numeric(col, errors='coerce')] at one cell of [col]: the
    number read, or NaN. *)
Definition to_numeric_cell (col : list Cell) (c : Cell) : Cell :=
  match parse_number col c with
  | Some x => Number x
  | None => Missing NaN
  end.

(** [Series.fillna(value)] *)
Definition fillna_cell (value : Cell) (c : Cell) : Cell :=
  if isna c then value else c.

(** [pd.to_datetime(col, errors='coerce')] at one cell of [col]: a
    timestamp stays, a value that is not available gives NaT, and so does
    a text or a number that is not read as a date. *)
Definition to_datetime_cell (col : list Cell) (c : Cell) : Cell :=
  match c with
  | Missing _ => Missing NaT
  | Date d => Date d
  | _ => match parse_datetime col c with
         | Some d => Date d
         | None => Missing NaT
         end
  end.

(** *** DataFrame methods, as functions of the frame's value *)

(** [Index.str.strip().str.lower().str.replace(' ', '_')] on one label. *)
Definition normalize_label (name : string) : string :=
  PyStr.replace " " "_" (PyStr.lower (PyStr.strip name)).

(** Whether two lists agree position by position. *)
Fixpoint all2 {A : Type} (p : A -> A -> bool) (l1 l2 : list A) : bool :=
  match l1, l2 with
  | [], [] => true
  | x :: l1', y :: l2' => p x y && all2 p l1' l2'
  | _, _ => false
  end.

Definition cell_eqb (a b : Cell) : bool :=
  if Cell_eq_dec a b then true else false.

(** Two cells that [DataFrame.duplicated] takes for the same in a frame
    of several columns: each column is factorized, and there every value
    that is not available is the one code -1. *)
Definition same_cell (a b : Cell) : bool :=
  cell_eqb a b || (isna a && isna b).

(** Two rows that [DataFrame.duplicated] takes for the same.  In a frame
    of one column the values go through a hash table as they are, where
    None, NaN and NaT are three keys; with more columns the rows are
    compared by [same_cell]. *)
Definition same_row (r s : Row) : bool :=
  match r, s with
  | [a], [b] => cell_eqb a b
  | _, _ => all2 same_cell r s
  end.

(** [DataFrame.duplicated()] with [keep='first'], of a frame with
    columns: a row is marked when a row the same as it stands above. *)
Fixpoint duplicated_from (seen : list Row) (rs : list Row) : list bool :=
  match rs with
  | [] => []
  | r :: rs' => existsb (same_row r) seen :: duplicated_from (r :: seen) rs'
  end.

Definition duplicated (rs : list Row) : list bool := duplicated_from [] rs.

(** Boolean-mask selection [df[mask]]. *)
Fixpoint select {A : Type} (mask : list bool) (l : list A) : list A :=
  match mask, l with
  | b :: mask', x :: l' => if b then x :: select mask' l' else select mask' l'
  | _, _ => []
  end.

(** [df.drop_duplicates()], that is [df[~df.duplicated()]]. *)
Definition drop_duplicates_frame (d : DataFrame) : DataFrame :=
  mkFrame (columns d) (select (map negb (duplicated (rows d))) (rows d)).

(** [df.dropna(subset=[name])] *)
Definition dropna_rows (ps : list nat) (rs : list Row) : list Row :=
  filter (fun r => forallb (fun i => negb (isna (cell r i))) ps) rs.

(** [df[name] = values] *)
Definition setitem_frame (name : string) (values : list Cell)
  (d : DataFrame) : DataFrame :=
  match positions name (columns d) with
  | [] => mkFrame (columns d ++ [name])
                  (map (fun rv => fst rv ++ [snd rv])
                       (combine (rows d)
                                (values ++ repeat (Missing NaN) (length (rows d)))))
  | ps => mkFrame (columns d)
                  (fold_left (fun rs i => assign_column i values rs) ps (rows d))
  end.

(** *** The log lines *)

Definition msg_headers : string :=
  "✅ Standardized column headers (lowercase, no spaces).".
Definition msg_removed (removed_count : nat) : string :=
  ("✅ Removed " ++ PyStr.str_of_nat removed_count ++ " duplicate rows.")%string.
Definition msg_amount : string :=
  "✅ Cleaned 'Amount' column (removed commas, converted text to numbers).".
Definition msg_status : string :=
  "✅ Standardized 'Status' column casing.".
Definition msg_date : string :=
  "✅ Parsed mixed Date formats into ISO standard (YYYY-MM-DD).".

(* ================================================================== *)
(** ** The object store *)
(* ================================================================== *)

(** Frames are Python objects: a variable holds a reference, and two
    variables may hold the same one.  The store lists the frames that
    exist; a reference is a position in it. *)
Definition ref : Type := nat.
Definition Heap : Type := list DataFrame.

Definition empty_frame : DataFrame := mkFrame [] [].

Definition deref (h : Heap) (r : ref) : DataFrame := nth r h empty_frame.

Fixpoint store (h : Heap) (r : ref) (d : DataFrame) : Heap :=
  match h, r with
  | [], _ => []
  | _ :: h', O => d :: h'
  | x :: h', S r' => x :: store h' r' d
  end.

(** A computation reads and updates the store, and returns or raises. *)
Definition Py (A : Type) : Type := Heap -> Outcome A * Heap.

Definition ret {A : Type} (a : A) : Py A := fun h => (Returns a, h).

Definition raise {A : Type} (e : Exn) : Py A := fun h => (Raises e, h).

Definition bind {A B : Type} (m : Py A) (k : A -> Py B) : Py B :=
  fun h =>
    match m h with
    | (Returns a, h') => k a h'
    | (Raises e, h') => (Raises e, h')
    end.

Notation "x <- m ;; k" := (bind m (fun x => k))
  (at level 61, m at next level, right associativity).
Notation "m ;;; k" := (bind m (fun _ => k))
  (at level 61, right associativity).

(** A new object. *)
Definition alloc (d : DataFrame) : Py ref :=
  fun h => (Returns (length h), h ++ [d]).

(** An object updated in place. *)
Definition modify (r : ref) (f : DataFrame -> DataFrame) : Py unit :=
  fun h => (Returns tt, store h r (f (deref h r))).

Definition read {A : Type} (r : ref) (f : DataFrame -> A) : Py A :=
  fun h => (Returns (f (deref h r)), h).

(** *** The pandas calls of the pipeline, on references *)

(** [df.columns] *)
Definition get_columns (df : ref) : Py (list string) := read df columns.

(** [df.columns = labels] *)
Definition set_columns (df : ref) (labels : list string) : Py unit :=
  modify df (fun d => mkFrame labels (rows d)).

(** [len(df)] *)
Definition len (df : ref) : Py nat := read df (fun d => length (rows d)).

(** [df.drop_duplicates()]: the result is a new frame. *)
Definition drop_duplicates (df : ref) : Py ref :=
  d <- read df drop_duplicates_frame ;; alloc d.

(** [name in df.columns] *)
Definition has_column (df : ref) (name : string) : Py bool :=
  read df (fun d => contains name (columns d)).

(** What [df[name]] gives, the column under a label that occurs once or
    a frame of several columns under a label that occurs more than once,
    and what [.astype(str)] makes of a column: a column of dtype object
    that holds strings only. *)
Inductive Selection : Type :=
| OneColumn (values : list Cell)
| StrColumn (values : list Cell)
| SubFrame (width : nat).

(** [df[name]] *)
Definition getitem (df : ref) (name : string) : Py Selection :=
  d <- read df (fun d => d) ;;
  match positions name (columns d) with
  | [] => raise KeyError
  | [i] => ret (OneColumn (column_values i (rows d)))
  | ps => ret (SubFrame (length ps))
  end.

(** [df[name] = values]: in place. *)
Definition setitem (df : ref) (name : string) (values : list Cell) : Py unit :=
  modify df (setitem_frame name values).

(** [.astype(str)] *)
Definition astype_str (s : Selection) : Selection :=
  match s with
  | OneColumn v => StrColumn (map astype_str_cell v)
  | StrColumn v => StrColumn v
  | SubFrame w => SubFrame w
  end.

(** [.str]: a frame has no such attribute; a column of the frame has it
    when pandas finds strings in it, and what [.astype(str)] returned
    always has (its values are inferred as strings, or as empty when
    there is none). *)
Definition str_accessor (s : Selection) : Py (list Cell) :=
  match s with
  | OneColumn v => if str_accessor_ok v then ret v else raise AttributeError
  | StrColumn v => ret v
  | SubFrame _ => raise AttributeError
  end.

(** [pd.to_numeric(s, errors='coerce')] *)
Definition to_numeric (s : Selection) : Py (list Cell) :=
  match s with
  | OneColumn v | StrColumn v => ret (map (to_numeric_cell v) v)
  | SubFrame _ => raise TypeError
  end.

(** [pd.to_datetime(s, errors='coerce')]: a frame is assembled from columns
    named year, month and day, which a frame of equally named columns does
    not have. *)
Definition to_datetime (s : Selection) : Py (list Cell) :=
  match s with
  | OneColumn v | StrColumn v => ret (map (to_datetime_cell v) v)
  | SubFrame _ => raise ValueError
  end.

(** [df[name].fillna(value, inplace=True)].  Without copy-on-write
    [df[name]] is a view of the column when the label occurs once, so the
    frame itself is filled; with copy-on-write it is a Series of its own,
    and filling it leaves the frame as it is.  A selection of several
    columns is a copy in either mode. *)
Definition fillna_inplace (df : ref) (name : string) (value : Cell) : Py unit :=
  d <- read df (fun d => d) ;;
  match positions name (columns d) with
  | [] => raise KeyError
  | [i] =>
      if copy_on_write then ret tt
      else modify df (fun d => mkFrame (columns d)
                                       (apply_column i (fillna_cell value) (rows d)))
  | _ => ret tt
  end.

(** [df.dropna(subset=[name])]: the result is a new frame. *)
Definition dropna (df : ref) (name : string) : Py ref :=
  d <- read df (fun d => d) ;;
  match positions name (columns d) with
  | [] => raise KeyError
  | ps => alloc (mkFrame (columns d) (dropna_rows ps (rows d)))
  end.

(** [df.copy()] *)
Definition copy (df : ref) : Py ref :=
  d <- read df (fun d => d) ;; alloc d.

(* ================================================================== *)
(** ** The pipeline *)
(* ================================================================== *)

(** Block A of [clean_data]: standardize the column names, in place. *)
Definition standardize_columns_block (df : ref) (report_log : list string)
  : Py (list string) :=
  labels <- get_columns df ;;
  set_columns df
    (map (PyStr.replace " " "_")
         (map PyStr.lower (map PyStr.strip labels))) ;;;
  ret (report_log ++ [msg_headers]).

(** Block B: remove the duplicates; [df] is rebound to the result of
    [drop_duplicates]. *)
Definition remove_duplicates_block (df : ref) (report_log : list string)
  : Py (ref * list string) :=
  initial_count <- len df ;;
  df <- drop_duplicates df ;;
  remaining <- len df ;;
  let removed_count := initial_count - remaining in
  ret (df, report_log ++ [msg_removed removed_count]).

(** Block C of [clean_data]: fix the 'Amount' column. *)
Definition fix_amount_block (df : ref) (report_log : list string)
  : Py (list string) :=
  has_amount <- has_column df "amount" ;;
  if has_amount : bool then
    s <- getitem df "amount" ;;
    s <- str_accessor (astype_str s) ;;
    setitem df "amount" (map (str_replace_cell "," "" s) s) ;;;
    s <- getitem df "amount" ;;
    s <- to_numeric s ;;
    setitem df "amount" s ;;;
    fillna_inplace df "amount" (Number zero) ;;;
    ret (report_log ++ [msg_amount])
  else ret report_log.

(** Block D: fix the 'Status' column. *)
Definition fix_status_block (df : ref) (report_log : list string)
  : Py (list string) :=
  has_status <- has_column df "status" ;;
  if has_status : bool then
    s <- getitem df "status" ;;
    s <- str_accessor s ;;
    setitem df "status" (map (str_title_cell s) s) ;;;
    ret (report_log ++ [msg_status])
  else ret report_log.

(** Block E: fix the date column; [df] is rebound to the result of
    [dropna]. *)
Definition fix_date_block (df : ref) (report_log : list string)
  : Py (ref * list string) :=
  has_date <- has_column df "date" ;;
  if has_date : bool then
    s <- getitem df "date" ;;
    s <- to_datetime s ;;
    setitem df "date" s ;;;
    df <- dropna df "date" ;;
    ret (df, report_log ++ [msg_date])
  else ret (df, report_log).

(** [clean_data(df)]: the five blocks in turn. *)
Definition clean_data (df : ref) : Py (ref * list string) :=
  let report_log : list string := [] in
  report_log <- standardize_columns_block df report_log ;;
  deduplicated <- remove_duplicates_block df report_log ;;
  let df := fst deduplicated in
  let report_log := snd deduplicated in
  report_log <- fix_amount_block df report_log ;;
  report_log <- fix_status_block df report_log ;;
  fix_date_block df report_log.

(** The call site of the application: [clean_data(df_raw.copy())]. *)
Definition run_pipeline (df_raw : ref) : Py (ref * list string) :=
  c <- copy df_raw ;; clean_data c.

(** [clean_data] run on a store that holds the one frame [t]: the frame
    and the log it returns. *)
Definition clean_data_on (t : DataFrame) : Outcome (DataFrame * list string) :=
  match clean_data 0 [t] with
  | (Returns (r, log), h) => Returns (deref h r, log)
  | (Raises e, _) => Raises e
  end.

(* ================================================================== *)
(** ** The pipeline as a function of the frame's value *)
(* ================================================================== *)

Definition rename_frame (d : DataFrame) : DataFrame :=
  mkFrame (map normalize_label (columns d)) (rows d).

(** The text that block C hands to [pd.to_numeric] for a cell. *)
Definition amount_text (c : Cell) : Cell :=
  Text (PyStr.replace "," "" (str_of_cell c)).

(** What block C does to one cell of the amount column, [col] being the
    column of texts that [pd.to_numeric] is given. *)
Definition amount_cell (col : list Cell) (c : Cell) : Cell :=
  let x := to_numeric_cell col (amount_text c) in
  if copy_on_write then x else fillna_cell (Number zero) x.

(** What blocks C, D and E do to a cell of their column [i] in the rows
    [rs]. *)
Definition amount_in (rs : list Row) (i : nat) : Cell -> Cell :=
  amount_cell (column_values i (apply_column i amount_text rs)).

Definition status_in (rs : list Row) (i : nat) : Cell -> Cell :=
  str_title_cell (column_values i rs).

Definition date_in (rs : list Row) (i : nat) : Cell -> Cell :=
  to_datetime_cell (column_values i rs).

Definition fix_amount (d : DataFrame) : Outcome DataFrame :=
  match positions "amount" (columns d) with
  | [] => Raises KeyError
  | [i] =>
      Returns (mkFrame (columns d)
                 (apply_column i (amount_in (rows d) i) (rows d)))
  | _ => Raises AttributeError
  end.

Definition fix_status (d : DataFrame) : Outcome DataFrame :=
  match positions "status" (columns d) with
  | [] => Raises KeyError
  | [i] =>
      if str_accessor_ok (column_values i (rows d))
      then Returns (mkFrame (columns d)
                      (apply_column i (status_in (rows d) i) (rows d)))
      else Raises AttributeError
  | _ => Raises AttributeError
  end.

(** The frame with its date column parsed, before [dropna]. *)
Definition parse_dates (i : nat) (d : DataFrame) : DataFrame :=
  mkFrame (columns d) (apply_column i (date_in (rows d) i) (rows d)).

Definition fix_date (d : DataFrame) : Outcome DataFrame :=
  match positions "date" (columns d) with
  | [] => Raises KeyError
  | [i] => Returns (mkFrame (columns d) (dropna_rows [i] (rows (parse_dates i d))))
  | _ => Raises ValueError
  end.

(** A stage runs when its column is there, and then adds its log line. *)
Definition stage (name : string) (fix_column : DataFrame -> Outcome DataFrame)
  (msg : string) (s : DataFrame * list string)
  : Outcome (DataFrame * list string) :=
  if contains name (columns (fst s)) then
    match fix_column (fst s) with
    | Returns d => Returns (d, snd s ++ [msg])
    | Raises e => Raises e
    end
  else Returns s.

Definition and_then {A B : Type} (o : Outcome A) (k : A -> Outcome B)
  : Outcome B :=
  match o with
  | Returns a => k a
  | Raises e => Raises e
  end.

Definition clean_table (t : DataFrame) : Outcome (DataFrame * list string) :=
  let d1 := rename_frame t in
  let d2 := drop_duplicates_frame d1 in
  let report_log :=
    [msg_headers; msg_removed (length (rows d1) - length (rows d2))] in
  and_then (stage "amount" fix_amount msg_amount (d2, report_log)) (fun s3 =>
  and_then (stage "status" fix_status msg_status s3) (fun s4 =>
  stage "date" fix_date msg_date s4)).

(* ================================================================== *)
(** ** The statements of [clean_data] compute [clean_table] *)
(* ================================================================== *)

Lemma positions_from_nil k name cols :
  positions_from k name cols = [] <-> contains name cols = false.
Proof.
  revert k; induction cols as [|c cs IH]; intro k; simpl.
  - ptauto.
  - destruct (String.eqb c name); simpl.
    + split; discriminate.
    + apply IH.
Qed.

Lemma contains_positions name cols :
  contains name cols = negb (match positions name cols with [] => true | _ => false end).
Proof.
  unfold positions.
  destruct (positions_from 0 name cols) eqn:E; simpl.
  - now apply positions_from_nil in E.
  - destruct (contains name cols) eqn:C; trivial.
    apply (positions_from_nil 0) in C. congruence.
Qed.

Lemma cell_set_cell i c r :
  cell (set_cell i c r) i = if i <? length r then c else Missing NaN.
Proof.
  unfold cell. revert i; induction r as [|x r IH]; intros [|i]; simpl; auto.
Qed.

Lemma set_cell_set_cell i c c' r :
  set_cell i c' (set_cell i c r) = set_cell i c' r.
Proof.
  revert i; induction r as [|x r IH]; intros [|i]; simpl; trivial.
  now rewrite IH.
Qed.

Lemma set_cell_short i c r : length r <= i -> set_cell i c r = r.
Proof.
  revert i; induction r as [|x r IH]; intros [|i] H; simpl in *; trivial.
  - lia.
  - rewrite IH; trivial; lia.
Qed.

Lemma length_set_cell i c r : length (set_cell i c r) = length r.
Proof.
  revert i; induction r as [|x r IH]; intros [|i]; simpl; trivial.
  now rewrite IH.
Qed.

Lemma nth_error_set_cell_other i j c r :
  i <> j -> nth_error (set_cell i c r) j = nth_error r j.
Proof.
  revert i j; induction r as [|x r IH]; intros [|i] [|j] H; simpl; trivial.
  - congruence.
  - apply IH; congruence.
Qed.

Lemma nth_error_set_cell_same i c r x :
  nth_error (set_cell i c r) i = Some x -> x = c.
Proof.
  revert i; induction r as [|y r IH]; intros [|i]; simpl; try discriminate.
  - congruence.
  - apply IH.
Qed.

(** Two updates of one cell, the second computed from the first, are one. *)
Lemma set_cell_fuse i (f g : Cell -> Cell) r :
  set_cell i (g (cell (set_cell i (f (cell r i)) r) i)) (set_cell i (f (cell r i)) r)
  = set_cell i (g (f (cell r i))) r.
Proof.
  rewrite set_cell_set_cell, cell_set_cell.
  destruct (i <? length r) eqn:E; trivial.
  apply Nat.ltb_ge in E. now rewrite !set_cell_short.
Qed.

Lemma apply_column_fuse i f g rs :
  apply_column i g (apply_column i f rs) = apply_column i (fun c => g (f c)) rs.
Proof.
  unfold apply_column. rewrite map_map. apply map_ext.
  intro r. apply set_cell_fuse.
Qed.

Lemma assign_column_map i (g : Row -> Cell) rs :
  assign_column i (map g rs) rs = map (fun r => set_cell i (g r) r) rs.
Proof.
  (* the values are consumed in step with the rows *)
  enough (H : forall rs', assign_column i (map g rs') rs'
                          = map (fun r => set_cell i (g r) r) rs') by apply H.
  induction rs' as [|r rs' IH]; simpl; trivial.
  now rewrite IH.
Qed.

Lemma assign_column_values i f rs :
  assign_column i (map f (column_values i rs)) rs = apply_column i f rs.
Proof.
  unfold column_values, apply_column. rewrite map_map.
  apply (assign_column_map i (fun r => f (cell r i))).
Qed.

Lemma length_apply_column i f rs : length (apply_column i f rs) = length rs.
Proof. apply length_map. Qed.

Lemma column_values_apply i f rs :
  Forall (fun r => i < length r) rs ->
  column_values i (apply_column i f rs) = map f (column_values i rs).
Proof.
  unfold column_values, apply_column. rewrite !map_map.
  induction 1 as [|r rs Hr _ IH]; simpl; trivial.
  rewrite IH, cell_set_cell.
  apply Nat.ltb_lt in Hr. now rewrite Hr.
Qed.

(** *** The store *)

Lemma deref_nth_error h r d : nth_error h r = Some d -> deref h r = d.
Proof. intro H. unfold deref. now apply nth_error_nth. Qed.

Lemma length_store h r d : length (store h r d) = length h.
Proof.
  revert r; induction h as [|x h IH]; intros [|r]; simpl; trivial.
  now rewrite IH.
Qed.

Lemma nth_error_store_same h r d :
  r < length h -> nth_error (store h r d) r = Some d.
Proof.
  revert r; induction h as [|x h IH]; intros [|r] H; simpl in *; try lia; trivial.
  apply IH; lia.
Qed.

Lemma nth_error_store_other h r r' d :
  r' <> r -> nth_error (store h r d) r' = nth_error h r'.
Proof.
  revert r r'; induction h as [|x h IH]; intros [|r] [|r'] H; simpl; trivial.
  - congruence.
  - apply IH; congruence.
Qed.

Lemma store_last h d d' : store (h ++ [d]) (length h) d' = h ++ [d'].
Proof. induction h as [|x h IH]; simpl; trivial. now rewrite IH. Qed.

Lemma deref_last h d : deref (h ++ [d]) (length h) = d.
Proof.
  apply deref_nth_error. rewrite nth_error_app2, Nat.sub_diag; trivial.
Qed.

Lemma setitem_frame_at name i values d :
  positions name (columns d) = [i] ->
  setitem_frame name values d = mkFrame (columns d) (assign_column i values (rows d)).
Proof. intro H. unfold setitem_frame. now rewrite H. Qed.

(** *** One statement at a time *)

Lemma bind_returns {A B : Type} (m : Py A) (k : A -> Py B) h a h' :
  m h = (Returns a, h') -> bind m k h = k a h'.
Proof. intro H. unfold bind. now rewrite H. Qed.

Lemma bind_raises {A B : Type} (m : Py A) (k : A -> Py B) h e h' :
  m h = (Raises e, h') -> bind m k h = (Raises e, h').
Proof. intro H. unfold bind. now rewrite H. Qed.

Section LastObject.

(** The frame [d] is the newest object of the store. *)
Variable h : Heap.
Variable d : DataFrame.

Lemma has_column_last name :
  has_column (length h) name (h ++ [d])
  = (Returns (contains name (columns d)), h ++ [d]).
Proof. unfold has_column, read. now rewrite deref_last. Qed.

Lemma len_last : len (length h) (h ++ [d]) = (Returns (length (rows d)), h ++ [d]).
Proof. unfold len, read. now rewrite deref_last. Qed.

Lemma getitem_last_one name i :
  positions name (columns d) = [i] ->
  getitem (length h) name (h ++ [d])
  = (Returns (OneColumn (column_values i (rows d))), h ++ [d]).
Proof.
  intro P. unfold getitem, bind, read. now rewrite deref_last, P.
Qed.

Lemma getitem_last_many name i j ps :
  positions name (columns d) = i :: j :: ps ->
  getitem (length h) name (h ++ [d])
  = (Returns (SubFrame (length (i :: j :: ps))), h ++ [d]).
Proof.
  intro P. unfold getitem, bind, read. now rewrite deref_last, P.
Qed.

Lemma setitem_last name i values :
  positions name (columns d) = [i] ->
  setitem (length h) name values (h ++ [d])
  = (Returns tt, h ++ [mkFrame (columns d) (assign_column i values (rows d))]).
Proof.
  intro P. unfold setitem, modify.
  now rewrite deref_last, store_last, (setitem_frame_at _ i).
Qed.

Lemma fillna_inplace_last name i value :
  positions name (columns d) = [i] ->
  fillna_inplace (length h) name value (h ++ [d])
  = (Returns tt,
     h ++ [mkFrame (columns d)
             (if copy_on_write then rows d
              else apply_column i (fillna_cell value) (rows d))]).
Proof.
  intro P. unfold fillna_inplace, bind, read, modify.
  rewrite deref_last, P. destruct copy_on_write.
  - unfold ret. now destruct d.
  - now rewrite deref_last, store_last.
Qed.

Lemma dropna_last name i ps :
  positions name (columns d) = i :: ps ->
  dropna (length h) name (h ++ [d])
  = (Returns (S (length h)),
     h ++ [d] ++ [mkFrame (columns d) (dropna_rows (i :: ps) (rows d))]).
Proof.
  intro P. unfold dropna, bind, read, alloc.
  rewrite deref_last, P, length_app, app_assoc. simpl.
  now rewrite Nat.add_1_r.
Qed.

End LastObject.

(** *** The blocks *)

Ltac run_py :=
  unfold bind, ret, raise, read, modify, alloc; simpl;
  rewrite ?deref_last, ?store_last; simpl.

Ltac step L := erewrite bind_returns by (apply L; eassumption); simpl.

Lemma amount_in_filled rs i :
  apply_column i (amount_in rs i) rs
  = (if copy_on_write
     then fun rs' => rs'
     else apply_column i (fillna_cell (Number zero)))
      (apply_column i
         (to_numeric_cell (column_values i (apply_column i amount_text rs)))
         (apply_column i amount_text rs)).
Proof.
  unfold amount_in, amount_cell.
  destruct copy_on_write; now rewrite !apply_column_fuse.
Qed.

Lemma fix_amount_block_spec h d log :
  fix_amount_block (length h) log (h ++ [d]) =
  match stage "amount" fix_amount msg_amount (d, log) with
  | Returns (d', log') => (Returns log', h ++ [d'])
  | Raises e => (Raises e, h ++ [d])
  end.
Proof.
  unfold fix_amount_block, stage, fix_amount; simpl.
  step has_column_last. rewrite contains_positions.
  destruct (positions "amount" (columns d)) as [|i [|j ps]] eqn:P; simpl; trivial.
  - step getitem_last_one.
    erewrite bind_returns by reflexivity.
    step setitem_last. step getitem_last_one.
    erewrite bind_returns by reflexivity.
    step setitem_last. step fillna_inplace_last.
    unfold ret.
    rewrite map_map, !assign_column_values, amount_in_filled.
    unfold amount_text. now destruct copy_on_write.
  - step getitem_last_many. reflexivity.
Qed.

Lemma fix_status_block_spec h d log :
  fix_status_block (length h) log (h ++ [d]) =
  match stage "status" fix_status msg_status (d, log) with
  | Returns (d', log') => (Returns log', h ++ [d'])
  | Raises e => (Raises e, h ++ [d])
  end.
Proof.
  unfold fix_status_block, stage, fix_status; simpl.
  step has_column_last. rewrite contains_positions.
  destruct (positions "status" (columns d)) as [|i [|j ps]] eqn:P; simpl; trivial.
  - step getitem_last_one.
    destruct (str_accessor_ok (column_values i (rows d))); [ | reflexivity ].
    erewrite bind_returns by reflexivity.
    step setitem_last. unfold ret.
    now rewrite assign_column_values.
  - step getitem_last_many. reflexivity.
Qed.

Lemma nth_error_after {A : Type} (h : list A) x y :
  nth_error (h ++ [x] ++ [y]) (S (length h)) = Some y.
Proof.
  rewrite nth_error_app2 by lia.
  replace (S (length h) - length h) with 1 by lia. reflexivity.
Qed.

Lemma fix_date_block_spec h d log :
  match stage "date" fix_date msg_date (d, log) with
  | Returns (out, log') =>
      exists r tl,
        fix_date_block (length h) log (h ++ [d]) = (Returns (r, log'), h ++ tl)
        /\ nth_error (h ++ tl) r = Some out /\ length h <= r
  | Raises e => fix_date_block (length h) log (h ++ [d]) = (Raises e, h ++ [d])
  end.
Proof.
  unfold fix_date_block, stage, fix_date; simpl.
  rewrite contains_positions.
  destruct (positions "date" (columns d)) as [|i [|j ps]] eqn:P; simpl.
  - exists (length h), [d]. step has_column_last.
    rewrite contains_positions, P. simpl.
    repeat split; trivial.
    now rewrite nth_error_app2, Nat.sub_diag.
  - eexists (S (length h)), _.
    split; [ | split; [ apply nth_error_after | lia ] ].
    step has_column_last.
    rewrite contains_positions, P. simpl.
    step getitem_last_one. erewrite bind_returns by reflexivity.
    step setitem_last.
    erewrite bind_returns by (apply dropna_last; simpl; eassumption).
    unfold ret. rewrite assign_column_values. reflexivity.
  - step has_column_last. rewrite contains_positions, P. simpl.
    step getitem_last_many. reflexivity.
Qed.

Lemma read_at {A : Type} h r d (f : DataFrame -> A) :
  nth_error h r = Some d -> read r f h = (Returns (f d), h).
Proof. intro H. unfold read. now rewrite (deref_nth_error _ _ _ H). Qed.

Lemma modify_at h r d f :
  nth_error h r = Some d -> modify r f h = (Returns tt, store h r (f d)).
Proof. intro H. unfold modify. now rewrite (deref_nth_error _ _ _ H). Qed.

(** *** The whole function *)

Lemma standardize_columns_block_spec h df t log :
  nth_error h df = Some t ->
  standardize_columns_block df log h
  = (Returns (log ++ [msg_headers]), store h df (rename_frame t)).
Proof.
  intro Ht. unfold standardize_columns_block, get_columns, set_columns.
  erewrite bind_returns by (apply read_at; eassumption).
  erewrite bind_returns by (apply modify_at; eassumption).
  now rewrite !map_map.
Qed.

Lemma remove_duplicates_block_spec h df t log :
  nth_error h df = Some t ->
  remove_duplicates_block df log h
  = (Returns (length h,
              log ++ [msg_removed (length (rows t)
                                   - length (rows (drop_duplicates_frame t)))]),
     h ++ [drop_duplicates_frame t]).
Proof.
  intro Ht. unfold remove_duplicates_block, len, drop_duplicates.
  erewrite bind_returns by (apply read_at; eassumption).
  erewrite bind_returns
    by (erewrite bind_returns by (apply read_at; eassumption); reflexivity).
  erewrite bind_returns by apply len_last.
  reflexivity.
Qed.

(** Blocks A and B: the labels of [df] are normalized in place, and the
    frame without duplicates is a new object, on which the other blocks
    work. *)
Lemma clean_data_blocks h df t :
  nth_error h df = Some t ->
  let hA := store h df (rename_frame t) in
  let d2 := drop_duplicates_frame (rename_frame t) in
  let log2 := [msg_headers;
               msg_removed (length (rows (rename_frame t)) - length (rows d2))] in
  clean_data df h
  = (report_log <- fix_amount_block (length hA) log2 ;;
     report_log <- fix_status_block (length hA) report_log ;;
     fix_date_block (length hA) report_log) (hA ++ [d2]).
Proof.
  intros Ht hA d2 log2.
  assert (Hlt : df < length h) by (apply nth_error_Some; congruence).
  assert (HA : nth_error hA df = Some (rename_frame t))
    by (apply nth_error_store_same; assumption).
  unfold clean_data.
  erewrite bind_returns by (apply standardize_columns_block_spec; eassumption).
  erewrite bind_returns by (apply remove_duplicates_block_spec; eassumption).
  reflexivity.
Qed.

(** On a store [h] where [df] refers to the frame [t], [clean_data df]
    - leaves the object [df] with its labels normalized and its rows as
      they were;
    - adds objects to the store and changes no other;
    - returns what [clean_table t] says, the frame in a new object. *)
Lemma clean_data_spec h df t :
  nth_error h df = Some t ->
  match clean_table t with
  | Returns (out, log) =>
      exists r tl,
        clean_data df h
        = (Returns (r, log), store h df (rename_frame t) ++ tl)
        /\ nth_error (store h df (rename_frame t) ++ tl) r = Some out
        /\ length h <= r
  | Raises e =>
      exists tl,
        clean_data df h = (Raises e, store h df (rename_frame t) ++ tl)
  end.
Proof.
  intro Ht. rewrite (clean_data_blocks h df t Ht).
  unfold clean_table.
  set (hA := store h df (rename_frame t)).
  assert (LA : length hA = length h) by apply length_store.
  set (d2 := drop_duplicates_frame (rename_frame t)).
  set (log2 := [msg_headers; msg_removed _]).
  unfold and_then.
  pose proof (fix_amount_block_spec hA d2 log2) as HC.
  destruct (stage "amount" fix_amount msg_amount (d2, log2)) as [[d3 log3]|e].
  2:{ exists [d2]. now erewrite bind_raises by eassumption. }
  erewrite bind_returns by eassumption.
  pose proof (fix_status_block_spec hA d3 log3) as HD.
  destruct (stage "status" fix_status msg_status (d3, log3)) as [[d4 log4]|e].
  2:{ exists [d3]. now erewrite bind_raises by eassumption. }
  erewrite bind_returns by eassumption.
  pose proof (fix_date_block_spec hA d4 log4) as HE.
  destruct (stage "date" fix_date msg_date (d4, log4)) as [[d5 log5]|e].
  - destruct HE as (r & tl & E & Hr & Hle). exists r, tl.
    rewrite <- LA. auto.
  - exists [d4]. assumption.
Qed.

(** Run on a store of its own, [clean_data] computes [clean_table]. *)
Lemma clean_data_on_eq t : clean_data_on t = clean_table t.
Proof.
  unfold clean_data_on.
  pose proof (clean_data_spec [t] 0 t eq_refl) as H.
  destruct (clean_table t) as [[out log]|e].
  - destruct H as (r & tl & E & Hr & _). rewrite E.
    now rewrite (deref_nth_error _ _ _ Hr).
  - destruct H as (tl & E). now rewrite E.
Qed.

(* ================================================================== *)
(** ** Dropping duplicates *)
(* ================================================================== *)

(** [l1] is [l2] with some elements left out, the others in their order. *)
Inductive subsequence {A : Type} : list A -> list A -> Prop :=
| subsequence_nil : subsequence [] []
| subsequence_skip x l1 l2 : subsequence l1 l2 -> subsequence l1 (x :: l2)
| subsequence_keep x l1 l2 : subsequence l1 l2 -> subsequence (x :: l1) (x :: l2).

(** The rows kept when the rows of [seen] stand above [rs]. *)
Definition kept_after (seen rs : list Row) : list Row :=
  select (map negb (duplicated_from seen rs)) rs.

Definition count_true (mask : list bool) : nat :=
  length (filter (fun b => b) mask).

(** *** The rows pandas takes for the same *)

Lemma cell_eqb_eq a b : cell_eqb a b = true <-> a = b.
Proof.
  unfold cell_eqb. destruct (Cell_eq_dec a b); split; congruence.
Qed.

Lemma cell_eqb_refl a : cell_eqb a a = true.
Proof. now apply cell_eqb_eq. Qed.

Lemma cell_eqb_sym a b : cell_eqb a b = cell_eqb b a.
Proof.
  unfold cell_eqb. destruct (Cell_eq_dec a b), (Cell_eq_dec b a); congruence.
Qed.

Lemma same_cell_refl a : same_cell a a = true.
Proof. unfold same_cell. now rewrite cell_eqb_refl. Qed.

Lemma same_cell_sym a b : same_cell a b = same_cell b a.
Proof. unfold same_cell. now rewrite cell_eqb_sym, (andb_comm (isna a)). Qed.

Lemma same_cell_trans a b c :
  same_cell a b = true -> same_cell b c = true -> same_cell a c = true.
Proof.
  unfold same_cell. intros H1 H2.
  apply orb_prop in H1 as [H1|H1]; [apply cell_eqb_eq in H1; now subst|].
  apply orb_prop in H2 as [H2|H2]; [apply cell_eqb_eq in H2; subst|].
  - now rewrite H1, orb_true_r.
  - apply andb_prop in H1 as [Ha _]. apply andb_prop in H2 as [_ Hc].
    now rewrite Ha, Hc, orb_true_r.
Qed.

(** The cells that are the same without being equal are the values that
    are not available. *)
Lemma same_cell_spec a b :
  same_cell a b = true <-> a = b \/ (isna a = true /\ isna b = true).
Proof.
  unfold same_cell. rewrite orb_true_iff, andb_true_iff, cell_eqb_eq.
  reflexivity.
Qed.

Lemma all2_refl {A : Type} (p : A -> A -> bool) l :
  (forall x, p x x = true) -> all2 p l l = true.
Proof. intro H. induction l as [|x l IH]; simpl; trivial. now rewrite H. Qed.

Lemma all2_sym {A : Type} (p : A -> A -> bool) l1 l2 :
  (forall x y, p x y = p y x) -> all2 p l1 l2 = all2 p l2 l1.
Proof.
  intro H. revert l2; induction l1 as [|x l1 IH]; intros [|y l2]; simpl; trivial.
  now rewrite H, IH.
Qed.

Lemma all2_trans {A : Type} (p : A -> A -> bool) l1 l2 l3 :
  (forall x y z, p x y = true -> p y z = true -> p x z = true) ->
  all2 p l1 l2 = true -> all2 p l2 l3 = true -> all2 p l1 l3 = true.
Proof.
  intro H. revert l2 l3.
  induction l1 as [|x l1 IH]; intros [|y l2] [|z l3]; simpl;
    trivial; try discriminate.
  intros H1 H2. apply andb_prop in H1 as [H1 H1']. apply andb_prop in H2 as [H2 H2'].
  now rewrite (H _ _ _ H1 H2), (IH _ _ H1' H2').
Qed.

Lemma all2_length {A : Type} (p : A -> A -> bool) l1 l2 :
  all2 p l1 l2 = true -> length l1 = length l2.
Proof.
  revert l2; induction l1 as [|x l1 IH]; intros [|y l2]; simpl;
    trivial; try discriminate.
  intro H. apply andb_prop in H as [_ H]. now rewrite (IH _ H).
Qed.

Lemma all2_nth {A : Type} (p : A -> A -> bool) l1 l2 i x y :
  all2 p l1 l2 = true ->
  nth_error l1 i = Some x -> nth_error l2 i = Some y -> p x y = true.
Proof.
  revert l2 i; induction l1 as [|a l1 IH]; intros [|b l2] [|i]; simpl;
    try discriminate.
  - intros H [= ->] [= ->]. now apply andb_prop in H as [H _].
  - intros H. apply andb_prop in H as [_ H]. now apply IH.
Qed.

Lemma same_row_refl r : same_row r r = true.
Proof.
  destruct r as [|a [|b r]]; trivial.
  - apply cell_eqb_refl.
  - apply (all2_refl same_cell), same_cell_refl.
Qed.

Lemma same_row_sym r s : same_row r s = same_row s r.
Proof.
  destruct r as [|a [|a' r]], s as [|b [|b' s]]; trivial;
    try apply cell_eqb_sym;
    apply (all2_sym same_cell), same_cell_sym.
Qed.

Lemma same_row_trans r s u :
  same_row r s = true -> same_row s u = true -> same_row r u = true.
Proof.
  destruct r as [|a [|a' r]], s as [|b [|b' s]], u as [|c [|c' u]];
    trivial; try discriminate;
    try (simpl; rewrite ?andb_false_r; discriminate).
  - simpl. rewrite !cell_eqb_eq. congruence.
  - apply (all2_trans same_cell), same_cell_trans.
Qed.

(** Rows the same to pandas have as many cells, and in a frame of two
    columns or more they are the same cell by cell. *)
Lemma same_row_length r s : same_row r s = true -> length r = length s.
Proof.
  destruct r as [|a [|a' r]], s as [|b [|b' s]]; trivial; try discriminate;
    try (simpl; rewrite ?andb_false_r; discriminate).
  apply (all2_length same_cell).
Qed.

Lemma same_row_one a b : same_row [a] [b] = true <-> a = b.
Proof. apply cell_eqb_eq. Qed.

Lemma same_row_wide r s :
  length r <> 1 -> same_row r s = all2 same_cell r s.
Proof.
  destruct r as [|a [|a' r]], s as [|b [|b' s]]; trivial.
  simpl. intro H. now contradiction H.
Qed.

Lemma same_row_nth r s i x y :
  same_row r s = true ->
  nth_error r i = Some x -> nth_error s i = Some y -> same_cell x y = true.
Proof.
  destruct r as [|a [|a' r]], s as [|b [|b' s]]; try discriminate;
    try (simpl; rewrite ?andb_false_r; discriminate);
    try apply (all2_nth same_cell).
  simpl same_row. rewrite cell_eqb_eq. intros ->.
  destruct i as [|[|i]]; simpl; try discriminate.
  intros [= ->] [= ->]. apply same_cell_refl.
Qed.

(** No two rows of the list are the same to pandas. *)
Inductive distinct_rows : list Row -> Prop :=
| distinct_nil : distinct_rows []
| distinct_cons r rs :
    existsb (same_row r) rs = false -> distinct_rows rs ->
    distinct_rows (r :: rs).

Lemma existsb_false {A : Type} (p : A -> bool) l :
  existsb p l = false <-> forall x, In x l -> p x = false.
Proof.
  induction l as [|y l IH]; simpl.
  - split; [contradiction | trivial].
  - rewrite orb_false_iff, IH. split.
    + intros [H1 H2] x [<-|H]; auto.
    + intro H. split; [apply H; now left | intros x Hx; apply H; now right].
Qed.

Lemma distinct_NoDup rs : distinct_rows rs -> NoDup rs.
Proof.
  induction 1 as [|r rs Hr _ IH]; constructor; trivial.
  intro Hin. rewrite existsb_false in Hr.
  specialize (Hr r Hin). now rewrite same_row_refl in Hr.
Qed.

(** *** The rows kept *)

Lemma kept_after_cons seen r rs :
  kept_after seen (r :: rs)
  = if existsb (same_row r) seen then kept_after (r :: seen) rs
    else r :: kept_after (r :: seen) rs.
Proof.
  unfold kept_after. simpl. now destruct (existsb (same_row r) seen).
Qed.

(** A row that is kept is a row of the frame that is the same as none in
    [seen]. *)
Lemma in_kept_after seen rs x :
  In x (kept_after seen rs) -> In x rs /\ existsb (same_row x) seen = false.
Proof.
  revert seen; induction rs as [|r rs IH]; intro seen; [contradiction|].
  rewrite kept_after_cons.
  destruct (existsb (same_row r) seen) eqn:E; simpl.
  - intro H. apply IH in H as [H1 H2]. simpl in H2.
    apply orb_false_iff in H2 as [_ H2]. auto.
  - intros [<-|H]; [auto|].
    apply IH in H as [H1 H2]. simpl in H2.
    apply orb_false_iff in H2 as [_ H2]. auto.
Qed.

(** Every row of the frame that is the same as none in [seen] has a row
    the same as it among the rows kept. *)
Lemma kept_after_covers seen rs x :
  In x rs -> existsb (same_row x) seen = false ->
  exists y, In y (kept_after seen rs) /\ same_row y x = true.
Proof.
  revert seen; induction rs as [|r rs IH]; intros seen Hin Hx; [contradiction|].
  rewrite kept_after_cons. destruct Hin as [->|Hin].
  - rewrite Hx. exists x. split; [now left | apply same_row_refl].
  - destruct (same_row x r) eqn:Exr.
    + destruct (existsb (same_row r) seen) eqn:Er.
      * exfalso. apply existsb_exists in Er as (z & Hz & Ez).
        rewrite existsb_false in Hx. specialize (Hx z Hz).
        now rewrite (same_row_trans x r z Exr Ez) in Hx.
      * exists r. split; [now left | now rewrite same_row_sym].
    + destruct (IH (r :: seen) Hin) as (y & Hy & Ey).
      { simpl. now rewrite Exr, Hx. }
      exists y. split; trivial.
      destruct (existsb (same_row r) seen); [|right]; trivial.
Qed.

Lemma distinct_kept_after seen rs : distinct_rows (kept_after seen rs).
Proof.
  revert seen; induction rs as [|r rs IH]; intro seen.
  - constructor.
  - rewrite kept_after_cons.
    destruct (existsb (same_row r) seen); [apply IH|].
    constructor; [|apply IH].
    apply existsb_false. intros y Hy.
    apply in_kept_after in Hy as [_ Hy]. simpl in Hy.
    apply orb_false_iff in Hy as [Hy _]. now rewrite same_row_sym.
Qed.

Lemma NoDup_kept_after seen rs : NoDup (kept_after seen rs).
Proof. apply distinct_NoDup, distinct_kept_after. Qed.

Lemma subsequence_kept_after seen rs : subsequence (kept_after seen rs) rs.
Proof.
  revert seen; induction rs as [|r rs IH]; intro seen.
  - constructor.
  - rewrite kept_after_cons.
    destruct (existsb (same_row r) seen); constructor; apply IH.
Qed.

Lemma length_duplicated_from seen rs :
  length (duplicated_from seen rs) = length rs.
Proof.
  revert seen; induction rs as [|r rs IH]; intro seen; simpl; trivial.
  now rewrite IH.
Qed.

(** The rows kept and the rows marked make up the frame. *)
Lemma length_kept_after seen rs :
  length (kept_after seen rs) + count_true (duplicated_from seen rs)
  = length rs.
Proof.
  revert seen; induction rs as [|r rs IH]; intro seen; trivial.
  rewrite kept_after_cons. unfold count_true in *. simpl.
  destruct (existsb (same_row r) seen); simpl; specialize (IH (r :: seen)); lia.
Qed.

(** A row is marked exactly when a row the same as it stands above it. *)
Lemma duplicated_from_nth seen rs i r :
  nth_error rs i = Some r ->
  nth_error (duplicated_from seen rs) i
  = Some (existsb (same_row r) (seen ++ firstn i rs)).
Proof.
  revert seen i; induction rs as [|x rs IH]; intros seen i.
  - destruct i; discriminate.
  - destruct i as [|i]; simpl.
    + intros [= ->]. rewrite app_nil_r. reflexivity.
    + intro H. rewrite (IH _ _ H). f_equal. simpl.
      rewrite !existsb_app. simpl.
      destruct (same_row r x), (existsb (same_row r) seen); simpl;
        trivial; now rewrite ?orb_true_r.
Qed.

Lemma in_firstn_iff {A : Type} (l : list A) i x :
  In x (firstn i l) <-> exists j, j < i /\ nth_error l j = Some x.
Proof.
  revert i; induction l as [|y l IH]; intro i.
  - rewrite firstn_nil. split; [contradiction|].
    intros (j & _ & H). destruct j; discriminate.
  - destruct i as [|i]; simpl.
    + split; [contradiction|]. intros (j & H & _). lia.
    + rewrite IH. split.
      * intros [->|(j & Hj & E)]; [exists 0 | exists (S j)]; split; trivial; lia.
      * intros ([|j] & Hj & E); simpl in E.
        -- left. congruence.
        -- right. exists j. split; trivial; lia.
Qed.

Lemma kept_after_fix seen rs :
  distinct_rows rs ->
  (forall x, In x rs -> existsb (same_row x) seen = false) ->
  kept_after seen rs = rs.
Proof.
  intro H; revert seen; induction H as [|r rs Hr Hrs IH]; intros seen Hs; trivial.
  rewrite kept_after_cons, (Hs r) by now left.
  f_equal. apply IH. intros x Hx. simpl.
  rewrite (Hs x) by now right.
  rewrite existsb_false in Hr. now rewrite same_row_sym, (Hr x Hx).
Qed.

Lemma kept_after_seen seen rs :
  (forall x, In x rs -> existsb (same_row x) seen = true) ->
  kept_after seen rs = [].
Proof.
  revert seen; induction rs as [|r rs IH]; intros seen Hs; trivial.
  rewrite kept_after_cons, (Hs r) by now left.
  apply IH. intros x Hx. simpl. rewrite (Hs x) by now right.
  apply orb_true_r.
Qed.

Lemma kept_after_app seen l1 l2 :
  kept_after seen (l1 ++ l2)
  = kept_after seen l1 ++ kept_after (rev l1 ++ seen) l2.
Proof.
  revert seen; induction l1 as [|r l1 IH]; intro seen; trivial.
  simpl app. rewrite !kept_after_cons, IH.
  simpl rev. rewrite <- app_assoc. simpl.
  now destruct (existsb (same_row r) seen).
Qed.

(** Rows of the frame appended to it again are all dropped. *)
Lemma kept_after_again rs k :
  kept_after [] (rs ++ firstn k rs) = kept_after [] rs.
Proof.
  rewrite kept_after_app, (kept_after_seen _ (firstn k rs)), app_nil_r; trivial.
  intros x Hx. apply existsb_exists. exists x. split; [|apply same_row_refl].
  rewrite in_app_iff. left. apply in_rev. rewrite rev_involutive.
  apply in_firstn_iff in Hx as (j & _ & Hj). now apply nth_error_In in Hj.
Qed.

(** A way to check by computation that no two rows are the same. *)
Lemma distinct_by_kept_after rs : kept_after [] rs = rs -> distinct_rows rs.
Proof. intros <-. apply distinct_kept_after. Qed.

Lemma rows_drop_duplicates_frame d :
  rows (drop_duplicates_frame d) = kept_after [] (rows d).
Proof. reflexivity. Qed.

Lemma drop_duplicates_frame_fix d :
  distinct_rows (rows d) -> drop_duplicates_frame d = d.
Proof.
  intro H. destruct d as [cols rs]. unfold drop_duplicates_frame. simpl in *.
  f_equal. apply (kept_after_fix [] rs H). auto.
Qed.

(* ================================================================== *)
(** ** What a run that returns has computed *)
(* ================================================================== *)

(** The rows after a cell-by-cell stage on the column [name]: the stage
    runs on the one column of that label, and is skipped without it; what
    it does to a cell may depend on the column as a whole. *)
Definition stage_rows (name : string) (f : list Row -> nat -> Cell -> Cell)
  (cols : list string) (rs : list Row) : list Row :=
  match positions name cols with
  | [i] => apply_column i (f rs i) rs
  | _ => rs
  end.

Definition date_rows (cols : list string) (rs : list Row) : list Row :=
  match positions "date" cols with
  | [i] => dropna_rows [i] (apply_column i (date_in rs i) rs)
  | _ => rs
  end.

Definition stage_log (name msg : string) (cols : list string) : list string :=
  if contains name cols then [msg] else [].

(** The rows of the result, from the rows of the argument. *)
Definition cleaned_rows (cols : list string) (rs : list Row) : list Row :=
  date_rows cols
    (stage_rows "status" status_in cols
       (stage_rows "amount" amount_in cols (kept_after [] rs))).

Definition cleaned_log (cols : list string) (rs : list Row) : list string :=
  [msg_headers; msg_removed (length rs - length (kept_after [] rs))]
  ++ stage_log "amount" msg_amount cols
  ++ stage_log "status" msg_status cols
  ++ stage_log "date" msg_date cols.

(** When a stage lets the run go on: its label occurs at most once, and
    pandas grants [.str] on the column where the stage asks for it. *)
Definition stage_passes (name : string) (check : list Cell -> bool)
  (cols : list string) (rs : list Row) : Prop :=
  match positions name cols with
  | [] => True
  | [i] => check (column_values i rs) = true
  | _ => False
  end.

Definition clean_passes (cols : list string) (rs : list Row) : Prop :=
  let rs2 := kept_after [] rs in
  let rs3 := stage_rows "amount" amount_in cols rs2 in
  let rs4 := stage_rows "status" status_in cols rs3 in
  stage_passes "amount" (fun _ => true) cols rs2
  /\ stage_passes "status" str_accessor_ok cols rs3
  /\ stage_passes "date" (fun _ => true) cols rs4.

(** One stage, whatever it does to the rows of its column. *)
Lemma stage_iff name fix_column msg check (g : nat -> list Row -> list Row) e1 e2 :
  (forall d, fix_column d
             = match positions name (columns d) with
               | [] => Raises KeyError
               | [i] => if check (column_values i (rows d)) : bool
                        then Returns (mkFrame (columns d) (g i (rows d)))
                        else Raises e1
               | _ => Raises e2
               end) ->
  forall d log d' log',
    stage name fix_column msg (d, log) = Returns (d', log') <->
    stage_passes name check (columns d) (rows d)
    /\ d' = mkFrame (columns d)
                    match positions name (columns d) with
                    | [i] => g i (rows d)
                    | _ => rows d
                    end
    /\ log' = log ++ stage_log name msg (columns d).
Proof.
  intros Hfix [cols rs] log d' log'.
  unfold stage, stage_passes, stage_log. simpl fst; simpl snd.
  rewrite Hfix. simpl columns; simpl rows.
  rewrite contains_positions.
  destruct (positions name cols) as [|i [|j ps]]; simpl.
  - rewrite app_nil_r.
    split; [intros [= <- <-]; auto | intros (_ & -> & ->); reflexivity].
  - destruct (check (column_values i rs)).
    + split; [intros [= <- <-]; auto | intros (_ & -> & ->); reflexivity].
    + split; [discriminate | intros (H & _); discriminate].
  - split; [discriminate | ptauto].
Qed.

Lemma clean_table_iff t out log :
  clean_table t = Returns (out, log) <->
  clean_passes (map normalize_label (columns t)) (rows t)
  /\ out = mkFrame (map normalize_label (columns t))
                   (cleaned_rows (map normalize_label (columns t)) (rows t))
  /\ log = cleaned_log (map normalize_label (columns t)) (rows t).
Proof.
  pose proof (stage_iff "amount" fix_amount msg_amount (fun _ => true)
                (fun i rs => apply_column i (amount_in rs i) rs)
                AttributeError AttributeError (fun d => eq_refl)) as HC.
  pose proof (stage_iff "status" fix_status msg_status str_accessor_ok
                (fun i rs => apply_column i (status_in rs i) rs)
                AttributeError AttributeError (fun d => eq_refl)) as HD.
  pose proof (stage_iff "date" fix_date msg_date (fun _ => true)
                (fun i rs => dropna_rows [i] (apply_column i (date_in rs i) rs))
                ValueError ValueError (fun d => eq_refl)) as HE.
  unfold clean_table, clean_passes, cleaned_rows, cleaned_log, and_then.
  set (cols := map normalize_label (columns t)).
  change (drop_duplicates_frame (rename_frame t))
    with (mkFrame cols (kept_after [] (rows t))).
  change (rows (rename_frame t)) with (rows t).
  set (rs2 := kept_after [] (rows t)).
  set (log2 := [msg_headers; msg_removed _]).
  change (rows (mkFrame cols rs2)) with rs2.
  split.
  - destruct (stage "amount" _ _ _) as [[d3 log3]|] eqn:E3; [|discriminate].
    apply HC in E3 as (P3 & -> & ->).
    destruct (stage "status" _ _ _) as [[d4 log4]|] eqn:E4; [|discriminate].
    apply HD in E4 as (P4 & -> & ->).
    intro E5. apply HE in E5 as (P5 & -> & ->).
    simpl in *. unfold stage_rows, date_rows.
    rewrite <- !app_assoc. auto.
  - intros ((P3 & P4 & P5) & -> & ->).
    rewrite (proj2 (HC (mkFrame cols rs2) log2 _ _)
                   (conj P3 (conj eq_refl eq_refl))).
    rewrite (proj2 (HD (mkFrame cols (stage_rows "amount" amount_in cols rs2))
                       _ _ _)
                   (conj P4 (conj eq_refl eq_refl))).
    rewrite (proj2 (HE (mkFrame cols
                          (stage_rows "status" status_in cols
                             (stage_rows "amount" amount_in cols rs2)))
                       _ _ _)
                   (conj P5 (conj eq_refl eq_refl))).
    simpl. unfold stage_rows, date_rows, log2. now rewrite <- !app_assoc.
Qed.

(** On its own store, [clean_data] returns exactly then and that. *)
Lemma clean_data_on_iff t out log :
  clean_data_on t = Returns (out, log) <->
  clean_passes (map normalize_label (columns t)) (rows t)
  /\ out = mkFrame (map normalize_label (columns t))
                   (cleaned_rows (map normalize_label (columns t)) (rows t))
  /\ log = cleaned_log (map normalize_label (columns t)) (rows t).
Proof. rewrite clean_data_on_eq. apply clean_table_iff. Qed.

(* ================================================================== *)
(** ** Block A: the column labels *)
(* ================================================================== *)

(** A label is normalized character by character, once stripped. *)
Lemma normalize_label_smap name :
  normalize_label name
  = PyStr.smap (fun c => PyStr.space_to_underscore (PyStr.to_lower c))
               (PyStr.strip name).
Proof.
  unfold normalize_label, PyStr.lower.
  now rewrite PyStr.replace_space_smap, PyStr.smap_smap.
Qed.

Lemma normalize_label_clean name :
  PyStr.starts_space (normalize_label name) = false
  /\ PyStr.ends_space (normalize_label name) = false
  /\ PyStr.sforall (fun c => negb (PyStr.is_upper c)) (normalize_label name) = true
  /\ PyStr.sforall (fun c => negb (Ascii.eqb c " ")) (normalize_label name) = true.
Proof.
  rewrite normalize_label_smap.
  destruct (PyStr.strip_clean name) as [Hs He].
  assert (Hsp : forall c, PyStr.is_space c = false ->
                  PyStr.is_space (PyStr.space_to_underscore (PyStr.to_lower c)) = false).
  { intros c Hc. apply PyStr.is_space_underscore.
    now rewrite PyStr.is_space_to_lower. }
  repeat split.
  - now apply PyStr.starts_space_smap.
  - now apply PyStr.ends_space_smap.
  - apply PyStr.sforall_smap. intro c.
    now rewrite PyStr.is_upper_underscore.
  - apply PyStr.sforall_smap. intro c.
    now rewrite PyStr.space_to_underscore_not_space.
Qed.

(** A normalized label is normalized to itself. *)
Lemma normalize_label_idem name :
  normalize_label (normalize_label name) = normalize_label name.
Proof.
  destruct (normalize_label_clean name) as (Hs & He & Hu & Hsp).
  set (n := normalize_label name) in *.
  rewrite (normalize_label_smap n), (PyStr.strip_fix n Hs He).
  rewrite <- PyStr.smap_smap.
  rewrite (PyStr.smap_fix PyStr.to_lower
             (fun c => negb (PyStr.is_upper c)) n); trivial.
  - apply (PyStr.smap_fix _ (fun c => negb (Ascii.eqb c " "))); trivial.
    intros c Hc. apply PyStr.space_to_underscore_fix.
    now apply negb_true_iff.
  - intros c Hc. apply PyStr.to_lower_fix. now apply negb_true_iff.
Qed.



(* ================================================================== *)
(** ** Block B: the duplicates *)
(* ================================================================== *)

Lemma existsb_firstn {A : Type} (p : A -> bool) l i :
  existsb p (firstn i l) = true
  <-> exists j x, j < i /\ nth_error l j = Some x /\ p x = true.
Proof.
  rewrite existsb_exists. split.
  - intros (x & Hx & Px). apply in_firstn_iff in Hx as (j & Hj & E).
    now exists j, x.
  - intros (j & x & Hj & E & Px). exists x. split; trivial.
    apply in_firstn_iff. now exists j.
Qed.

Lemma duplicated_nth rs i r :
  nth_error rs i = Some r ->
  (nth_error (duplicated rs) i = Some true
   <-> exists j r', j < i /\ nth_error rs j = Some r' /\ same_row r r' = true)
  /\ (nth_error (duplicated rs) i = Some false
      <-> ~ exists j r', j < i /\ nth_error rs j = Some r' /\ same_row r r' = true).
Proof.
  intro H. unfold duplicated. rewrite (duplicated_from_nth [] rs i r H).
  simpl app. rewrite <- existsb_firstn.
  destruct (existsb (same_row r) (firstn i rs)); split; split;
    trivial; try discriminate; try congruence.
Qed.

(** A row that is not marked is selected. *)
Lemma select_unmarked {A : Type} (mask : list bool) (l : list A) i x :
  nth_error l i = Some x -> nth_error mask i = Some false ->
  In x (select (map negb mask) l).
Proof.
  revert mask i; induction l as [|y l IH]; intros [|b mask] [|i]; simpl;
    try discriminate.
  - intros [= ->] [= ->]. now left.
  - intros Hx Hm. destruct b; simpl; [|right]; eauto.
Qed.

Lemma same_row_wide_spec r s :
  length r <> 1 ->
  (same_row r s = true
   <-> Forall2 (fun a b => a = b \/ (isna a = true /\ isna b = true)) r s).
Proof.
  intro H. rewrite (same_row_wide r s H). clear H.
  revert s; induction r as [|a r IH]; intros [|b s]; simpl.
  - split; [constructor | trivial].
  - split; [discriminate | inversion 1].
  - split; [discriminate | inversion 1].
  - rewrite andb_true_iff, same_cell_spec, IH. split.
    + intros [H1 H2]. now constructor.
    + inversion 1; subst; auto.
Qed.

(** C7, as the code has it.  Deduplication, on a frame with columns:
    block B puts in a new frame, under the same labels, the rows of the
    frame that have no row the same as them above, in their order.  Two
    rows are the same when they are equal cell by cell, any two values
    that are not available (None, NaN, NaT) counting as equal; in a frame
    of one column these three are told apart.  A row is left out exactly
    when a row the same as it stands above, so the first of them stays,
    every row of the frame has a row the same as it in the result, no
    two rows of which are the same, and the log line gives the number of
    rows left out, zero included.  Rows of a frame appended to it again
    are all left out, and counted; so fifty rows no two of which are the
    same, followed by the first five of them again, give the fifty rows
    back and the line "Removed 5 duplicate rows." *)
Theorem deduplication h df t report_log :
  nth_error h df = Some t ->
  columns t <> [] ->
  let mask := duplicated (rows t) in
  let out := drop_duplicates_frame t in
  remove_duplicates_block df report_log h
  = (Returns (length h, report_log ++ [msg_removed (count_true mask)]),
     h ++ [out])
  /\ columns out = columns t
  /\ rows out = select (map negb mask) (rows t)
  /\ length mask = length (rows t)
  /\ (forall i r,
        nth_error (rows t) i = Some r ->
        (nth_error mask i = Some true
         <-> exists j r', j < i /\ nth_error (rows t) j = Some r'
                          /\ same_row r r' = true)
        /\ (nth_error mask i = Some false
            <-> ~ exists j r', j < i /\ nth_error (rows t) j = Some r'
                               /\ same_row r r' = true)
        /\ (nth_error mask i = Some false -> In r (rows out)))
  /\ (forall a b, same_row [a] [b] = true <-> a = b)
  /\ (forall r s,
        length r <> 1 ->
        (same_row r s = true
         <-> Forall2 (fun a b => a = b \/ (isna a = true /\ isna b = true)) r s))
  /\ distinct_rows (rows out)
  /\ NoDup (rows out)
  /\ (forall r, In r (rows out) -> In r (rows t))
  /\ (forall r, In r (rows t) ->
                exists r', In r' (rows out) /\ same_row r' r = true)
  /\ subsequence (rows out) (rows t)
  /\ length (rows out) + count_true mask = length (rows t)
  /\ (forall base k,
        rows t = rows base ++ firstn k (rows base) ->
        k <= length (rows base) ->
        rows out = rows (drop_duplicates_frame base)
        /\ count_true mask = count_true (duplicated (rows base)) + k)
  /\ (forall base,
        columns t = columns base ->
        rows t = rows base ++ firstn 5 (rows base) ->
        length (rows base) = 50 ->
        distinct_rows (rows base) ->
        out = base
        /\ length (rows out) = 50
        /\ msg_removed (count_true mask) = "✅ Removed 5 duplicate rows.").
Proof.
  intros Ht _ mask out.
  assert (Hlen : length (rows out) + count_true mask = length (rows t))
    by apply (length_kept_after [] (rows t)).
  repeat match goal with |- _ /\ _ => split end; trivial.
  - rewrite (remove_duplicates_block_spec h df t report_log Ht).
    fold out. replace (length (rows t) - length (rows out))
      with (count_true mask) by lia.
    reflexivity.
  - apply length_duplicated_from.
  - intros i r Hr. destruct (duplicated_nth _ _ _ Hr) as [H1 H2].
    split; [exact H1|]. split; [exact H2|].
    now apply select_unmarked.
  - apply same_row_one.
  - apply same_row_wide_spec.
  - apply (distinct_kept_after [] (rows t)).
  - apply (NoDup_kept_after [] (rows t)).
  - intros r Hr. now apply (in_kept_after [] (rows t)) in Hr.
  - intros r Hr. now apply (kept_after_covers [] (rows t)).
  - apply (subsequence_kept_after [] (rows t)).
  - intros base k Hr Hk.
    assert (E : rows out = rows (drop_duplicates_frame base)).
    { change (rows out) with (kept_after [] (rows t)).
      now rewrite Hr, kept_after_again. }
    split; trivial.
    pose proof (length_kept_after [] (rows base)) as Hb.
    rewrite Hr, length_app, length_firstn, E in Hlen.
    change (rows (drop_duplicates_frame base))
      with (kept_after [] (rows base)) in Hlen.
    unfold duplicated. lia.
  - intros base Hc Hr H50 Hnd.
    assert (E : rows out = rows base).
    { change (rows out) with (kept_after [] (rows t)).
      rewrite Hr, kept_after_again. apply kept_after_fix; auto. }
    assert (E5 : count_true mask = 5).
    { rewrite Hr, length_app, length_firstn, E, H50 in Hlen.
      simpl in Hlen. lia. }
    repeat split.
    + destruct base as [cb rb]. unfold out, drop_duplicates_frame.
      simpl in *. fold (kept_after [] (rows t)).
      change (kept_after [] (rows t)) with (rows out).
      now rewrite E, Hc.
    + now rewrite E.
    + now rewrite E5.
Qed.

(* ================================================================== *)
(** ** The log *)
(* ================================================================== *)

Lemma removed_count rs :
  length rs - length (kept_after [] rs) = count_true (duplicated rs).
Proof. pose proof (length_kept_after [] rs). unfold duplicated. lia. Qed.

Lemma has_column_at h r d name :
  nth_error h r = Some d ->
  has_column r name h = (Returns (contains name (columns d)), h).
Proof.
  intro H. exact (read_at h r d (fun d => contains name (columns d)) H).
Qed.

(** C9. Stage skipping and the log: a block whose column is not among
    the (normalized) labels returns at once, with the store and the log as
    they were; the log of a run that returns is the header line, the
    duplicates line and then one line for each of the amount, status and
    date blocks whose column is there, in this order, hence of two to five
    lines. *)
Theorem stage_skipping_and_log t out report_log :
  clean_data_on t = Returns (out, report_log) ->
  let cols := map normalize_label (columns t) in
  report_log
  = [msg_headers; msg_removed (count_true (duplicated (rows t)))]
    ++ (if contains "amount" cols then [msg_amount] else [])
    ++ (if contains "status" cols then [msg_status] else [])
    ++ (if contains "date" cols then [msg_date] else [])
  /\ 2 <= length report_log <= 5
  /\ (forall h r d lg,
        nth_error h r = Some d -> contains "amount" (columns d) = false ->
        fix_amount_block r lg h = (Returns lg, h))
  /\ (forall h r d lg,
        nth_error h r = Some d -> contains "status" (columns d) = false ->
        fix_status_block r lg h = (Returns lg, h))
  /\ (forall h r d lg,
        nth_error h r = Some d -> contains "date" (columns d) = false ->
        fix_date_block r lg h = (Returns (r, lg), h)).
Proof.
  intros H cols. apply clean_data_on_iff in H as (_ & _ & ->).
  fold cols. unfold cleaned_log, stage_log. rewrite removed_count.
  split; [reflexivity|]. split.
  - simpl. destruct (contains "amount" cols), (contains "status" cols),
      (contains "date" cols); simpl; lia.
  - repeat split; intros h r d lg Hd Hc;
      [ unfold fix_amount_block | unfold fix_status_block
      | unfold fix_date_block ];
      erewrite bind_returns by (apply has_column_at; eassumption);
      now rewrite Hc.
Qed.

(* ================================================================== *)
(** ** What the blocks leave alone *)
(* ================================================================== *)

Lemma positions_from_nth k name cols i :
  In i (positions_from k name cols) ->
  k <= i /\ nth_error cols (i - k) = Some name.
Proof.
  revert k; induction cols as [|c cs IH]; intro k; simpl; [ptauto|].
  destruct (String.eqb_spec c name) as [->|_]; simpl.
  - intros [<-|H].
    + rewrite Nat.sub_diag. auto.
    + apply IH in H as [Hk Hn]. split; [lia|].
      replace (i - k) with (S (i - S k)) by lia. assumption.
  - intro H. apply IH in H as [Hk Hn]. split; [lia|].
    replace (i - k) with (S (i - S k)) by lia. assumption.
Qed.

Lemma positions_nth name cols i :
  In i (positions name cols) -> nth_error cols i = Some name.
Proof.
  intro H. apply positions_from_nth in H as [_ H].
  now rewrite Nat.sub_0_r in H.
Qed.

(** [r'] is [r] but for the cells under the labels amount, status, date. *)
Definition same_elsewhere (cols : list string) (r r' : Row) : Prop :=
  length r' = length r
  /\ forall j name,
       nth_error cols j = Some name ->
       name <> "amount" -> name <> "status" -> name <> "date" ->
       nth_error r' j = nth_error r j.

Lemma same_elsewhere_refl cols r : same_elsewhere cols r r.
Proof. split; auto. Qed.

Lemma same_elsewhere_trans cols r1 r2 r3 :
  same_elsewhere cols r1 r2 -> same_elsewhere cols r2 r3 ->
  same_elsewhere cols r1 r3.
Proof.
  intros [L1 H1] [L2 H2]. split; [congruence|].
  intros j name Hj Ha Hs Hd. rewrite (H2 j name), (H1 j name); auto.
Qed.

Lemma same_elsewhere_set_cell cols name i c r :
  nth_error cols i = Some name ->
  name = "amount" \/ name = "status" \/ name = "date" ->
  same_elsewhere cols r (set_cell i c r).
Proof.
  intros Hi Hrole. split; [apply length_set_cell|].
  intros j name' Hj Ha Hs Hd. apply nth_error_set_cell_other.
  intros <-. rewrite Hi in Hj. injection Hj as <-. ptauto.
Qed.

Lemma Forall2_map_same {A : Type} (R : A -> A -> Prop) (g : A -> A) l :
  (forall x, R x (g x)) -> Forall2 R l (map g l).
Proof. intro H. induction l; simpl; constructor; auto. Qed.

Lemma Forall2_trans {A : Type} (R : A -> A -> Prop) l1 l2 l3 :
  (forall x y z, R x y -> R y z -> R x z) ->
  Forall2 R l1 l2 -> Forall2 R l2 l3 -> Forall2 R l1 l3.
Proof.
  intros HR H12. revert l3. induction H12; intros l3 H23; inversion H23; subst.
  - constructor.
  - constructor; eauto.
Qed.

Lemma Forall2_filter {A : Type} (R : A -> A -> Prop) p l1 l2 :
  Forall2 R l1 l2 ->
  exists l1', subsequence l1' l1 /\ Forall2 R l1' (filter p l2).
Proof.
  induction 1 as [|x y l1 l2 Hxy _ (l1' & Hs & Hf)]; simpl.
  - exists []. split; constructor.
  - destruct (p y).
    + exists (x :: l1'). split; constructor; assumption.
    + exists l1'. split; [constructor|]; assumption.
Qed.

Lemma subsequence_trans {A : Type} (l1 l2 l3 : list A) :
  subsequence l1 l2 -> subsequence l2 l3 -> subsequence l1 l3.
Proof.
  intros H12 H23. revert l1 H12.
  induction H23 as [|x l2 l3 _ IH|x l2 l3 _ IH]; intros l1 H12.
  - assumption.
  - apply subsequence_skip. auto.
  - inversion H12; subst.
    + apply subsequence_skip. auto.
    + apply subsequence_keep. auto.
Qed.

Lemma subsequence_length {A : Type} (l1 l2 : list A) :
  subsequence l1 l2 -> length l1 <= length l2.
Proof. induction 1; simpl; lia. Qed.

Lemma stage_rows_same_elsewhere name f cols rs :
  name = "amount" \/ name = "status" \/ name = "date" ->
  Forall2 (same_elsewhere cols) rs (stage_rows name f cols rs).
Proof.
  intro Hrole. unfold stage_rows.
  destruct (positions name cols) as [|i [|j ps]] eqn:P.
  - rewrite <- (map_id rs) at 2.
    apply Forall2_map_same, same_elsewhere_refl.
  - apply Forall2_map_same. intro r.
    apply (same_elsewhere_set_cell cols name); trivial.
    apply positions_nth. rewrite P. now left.
  - rewrite <- (map_id rs) at 2.
    apply Forall2_map_same, same_elsewhere_refl.
Qed.

(** The rows of the result come from rows that [drop_duplicates] kept,
    in order. *)
Lemma cleaned_rows_origin cols rs :
  exists kept,
    subsequence kept (kept_after [] rs)
    /\ Forall2 (same_elsewhere cols) kept (cleaned_rows cols rs).
Proof.
  unfold cleaned_rows.
  set (rs2 := kept_after [] rs).
  set (rs3 := stage_rows "amount" amount_in cols rs2).
  set (rs4 := stage_rows "status" status_in cols rs3).
  assert (H4 : Forall2 (same_elsewhere cols) rs2 rs4).
  { apply (Forall2_trans _ rs2 rs3 rs4 (same_elsewhere_trans cols));
      apply stage_rows_same_elsewhere; auto. }
  assert (S2 : subsequence rs2 rs2).
  { clear. induction rs2; constructor; assumption. }
  unfold date_rows.
  destruct (positions "date" cols) as [|i [|j ps]] eqn:P; eauto.
  assert (H5 : Forall2 (same_elsewhere cols) rs2
                 (apply_column i (to_datetime_cell (column_values i rs4)) rs4)).
  { apply (Forall2_trans _ rs2 rs4 _ (same_elsewhere_trans cols)); trivial.
    apply Forall2_map_same. intro r.
    apply (same_elsewhere_set_cell cols "date"); auto.
    apply positions_nth. rewrite P. now left. }
  apply (Forall2_filter _
           (fun r => forallb (fun i => negb (isna (cell r i))) [i]) _ _ H5).
Qed.

Lemma subsequence_NoDup {A : Type} (l1 l2 : list A) :
  subsequence l1 l2 -> NoDup l2 -> NoDup l1.
Proof.
  induction 1 as [|x l1 l2 Hs IH|x l1 l2 Hs IH]; intro H; trivial.
  - inversion H; auto.
  - inversion H as [|? ? Hx Hn]; subst. constructor; auto.
    intro Hin. apply Hx. clear - Hs Hin.
    induction Hs; simpl in *; ptauto.
Qed.

Lemma Forall2_length_le {A : Type} (R : A -> A -> Prop) l1 l2 :
  Forall2 R l1 l2 -> length l2 = length l1.
Proof. induction 1; simpl; congruence. Qed.

(** C10. Column preservation: the result has the labels of the argument,
    normalized, as many and in the same order; its rows come from rows of
    the argument, in their order, each with as many cells as before and
    with the same cell under every label other than amount, status and
    date. *)
Theorem column_preservation t out report_log :
  clean_data_on t = Returns (out, report_log) ->
  columns out = map normalize_label (columns t)
  /\ length (columns out) = length (columns t)
  /\ (forall j, nth_error (columns out) j
                = option_map normalize_label (nth_error (columns t) j))
  /\ exists kept,
       subsequence kept (rows t)
       /\ Forall2
            (fun r r' =>
               length r' = length r
               /\ forall j name,
                    nth_error (columns out) j = Some name ->
                    name <> "amount" -> name <> "status" -> name <> "date" ->
                    nth_error r' j = nth_error r j)
            kept (rows out).
Proof.
  intro H. apply clean_data_on_iff in H as (_ & -> & _). simpl.
  split; [reflexivity|]. split; [apply length_map|].
  split; [intro j; apply nth_error_map|].
  destruct (cleaned_rows_origin (map normalize_label (columns t)) (rows t))
    as (kept & Hs & Hf).
  exists kept. split; trivial.
  apply (subsequence_trans kept (kept_after [] (rows t)) (rows t)); trivial.
  apply subsequence_kept_after.
Qed.

(* ================================================================== *)
(** ** What a column holds after the blocks *)
(* ================================================================== *)

(** Every cell of column [i] satisfies [P]. *)
Definition column_holds (P : Cell -> Prop) (i : nat) (rs : list Row) : Prop :=
  forall r, In r rs -> forall c, nth_error r i = Some c -> P c.

Lemma nth_positions_from k name cols i :
  nth_error cols i = Some name -> In (k + i) (positions_from k name cols).
Proof.
  revert k i; induction cols as [|c cs IH]; intros k [|i]; simpl;
    try discriminate.
  - intros [= ->]. rewrite String.eqb_refl, Nat.add_0_r. now left.
  - intro H. replace (k + S i) with (S k + i) by lia.
    destruct (String.eqb c name); [right|]; now apply IH.
Qed.

Lemma nth_positions name cols i :
  nth_error cols i = Some name -> In i (positions name cols).
Proof. apply (nth_positions_from 0). Qed.

Lemma positions_one name cols i j :
  positions name cols = [i] -> nth_error cols j = Some name -> j = i.
Proof.
  intros P H. apply nth_positions in H. rewrite P in H.
  destruct H as [<-|[]]. reflexivity.
Qed.

Lemma positions_apart name name' cols i j :
  name <> name' ->
  In i (positions name cols) -> nth_error cols j = Some name' -> i <> j.
Proof.
  intros Hne Hi Hj <-. apply positions_nth in Hi. congruence.
Qed.

(** In a well-formed frame every row has a cell under every label. *)
Lemma well_formed_cell d name i :
  well_formed d -> positions name (columns d) = [i] ->
  Forall (fun r => i < length r) (rows d).
Proof.
  intros W P.
  assert (Hi : i < length (columns d)).
  { apply nth_error_Some. rewrite (positions_nth name); [discriminate|].
    rewrite P. now left. }
  unfold well_formed in W. rewrite Forall_forall in *.
  intros r Hr. now rewrite (W r Hr).
Qed.

Lemma column_holds_apply_same P i f rs :
  (forall c, P (f c)) -> column_holds P i (apply_column i f rs).
Proof.
  intros Hf r Hr c Hc. apply in_map_iff in Hr as (r0 & <- & _).
  apply nth_error_set_cell_same in Hc. subst. apply Hf.
Qed.

Lemma column_holds_apply_other P i j f rs :
  i <> j -> column_holds P j rs -> column_holds P j (apply_column i f rs).
Proof.
  intros Hne H r Hr c Hc. apply in_map_iff in Hr as (r0 & <- & Hr0).
  rewrite nth_error_set_cell_other in Hc by assumption. eauto.
Qed.

Lemma column_holds_filter P j p rs :
  column_holds P j rs -> column_holds P j (filter p rs).
Proof. intros H r Hr. apply filter_In in Hr as [Hr _]. now apply H. Qed.

Lemma column_holds_stage_other P name name' f cols rs j :
  name <> name' -> nth_error cols j = Some name' ->
  column_holds P j rs -> column_holds P j (stage_rows name f cols rs).
Proof.
  intros Hne Hj H. unfold stage_rows.
  destruct (positions name cols) as [|i [|i' ps]] eqn:E; trivial.
  apply column_holds_apply_other; trivial.
  apply (positions_apart name name' cols); trivial. rewrite E. now left.
Qed.

Lemma column_holds_date_other P name' cols rs j :
  "date" <> name' -> nth_error cols j = Some name' ->
  column_holds P j rs -> column_holds P j (date_rows cols rs).
Proof.
  intros Hne Hj H. unfold date_rows.
  destruct (positions "date" cols) as [|i [|i' ps]] eqn:E; trivial.
  apply column_holds_filter, column_holds_apply_other; trivial.
  apply (positions_apart "date" name' cols); trivial. rewrite E. now left.
Qed.

Lemma set_cell_same i r : set_cell i (cell r i) r = r.
Proof.
  unfold cell. revert i; induction r as [|x r IH]; intros [|i]; simpl; trivial.
  now rewrite IH.
Qed.

Lemma nth_error_cell r i c : nth_error r i = Some c -> cell r i = c.
Proof. intro H. unfold cell. now apply nth_error_nth. Qed.

(** A function that fixes the cells of a column leaves the rows alone. *)
Lemma apply_column_fix i f rs :
  column_holds (fun c => f c = c) i rs -> apply_column i f rs = rs.
Proof.
  intro H. unfold apply_column. rewrite <- (map_id rs) at 2.
  apply map_ext_in. intros r Hr.
  destruct (nth_error r i) as [c|] eqn:E.
  - rewrite (nth_error_cell r i c E), (H r Hr c E).
    rewrite <- (nth_error_cell r i c E). apply set_cell_same.
  - apply set_cell_short. now apply nth_error_None.
Qed.

(* ================================================================== *)
(** ** Block C: the amounts *)
(* ================================================================== *)

Lemma replace_comma_na k : PyStr.replace "," "" (str_of_na k) = str_of_na k.
Proof. now destruct k. Qed.

Lemma amount_text_eq c :
  amount_text c = Text (PyStr.replace "," "" (str_of_cell c)).
Proof. reflexivity. Qed.

Lemma amount_text_missing k : amount_text (Missing k) = Text (str_of_na k).
Proof. rewrite amount_text_eq. simpl str_of_cell. now rewrite replace_comma_na. Qed.

Lemma amount_cell_eq col c :
  amount_cell col c
  = match parse_number col (amount_text c) with
    | Some x => Number x
    | None => if copy_on_write then Missing NaN else Number zero
    end.
Proof.
  unfold amount_cell, to_numeric_cell.
  destruct (parse_number col (amount_text c)), copy_on_write; reflexivity.
Qed.

Lemma amount_cell_numeric col c :
  copy_on_write = false -> exists x, amount_cell col c = Number x.
Proof.
  intro H. rewrite amount_cell_eq, H.
  destruct (parse_number col (amount_text c)); eexists; reflexivity.
Qed.

(** In a well-formed frame [pd.to_numeric] is given the texts of the
    cells of the column. *)
Lemma amount_in_well_formed rs i :
  Forall (fun r => i < length r) rs ->
  amount_in rs i = amount_cell (map amount_text (column_values i rs)).
Proof. intro H. unfold amount_in. now rewrite column_values_apply. Qed.

(** C3, as the code has it.  Amount coercion: block C, when the amount
    column is there, prints every cell of it ([str]), removes the commas
    of the text and hands the column of these texts to [pd.to_numeric]:
    a cell becomes the number read from its text within the column.  So
    a text cell has its commas removed and is read as a number, and a
    number keeps its value when its printed form reads back as that
    number (to_numeric reads a column in which one value is no int64 as
    float64, where a large integer comes back rounded).  With
    copy-on-write off, the default of pandas 2, a cell whose text reads
    as no number, the None, nan or NaT of a missing cell among them,
    becomes 0, and every cell of the column comes out a number, in the
    frame of the block and in the frame [clean_data] returns; with
    copy-on-write on the fill is lost and such a cell is NaN. *)
Theorem amount_coercion h d lg lg' h' :
  contains "amount" (columns d) = true ->
  well_formed d ->
  fix_amount_block (length h) lg (h ++ [d]) = (Returns lg', h') ->
  exists i,
    let col := map amount_text (column_values i (rows d)) in
    let out := apply_column i (amount_cell col) (rows d) in
    positions "amount" (columns d) = [i]
    /\ lg' = lg ++ [msg_amount]
    /\ h' = h ++ [mkFrame (columns d) out]
    /\ column_values i out = map (amount_cell col) (column_values i (rows d))
    /\ (forall c, amount_text c = Text (PyStr.replace "," "" (str_of_cell c)))
    /\ (forall c,
          amount_cell col c
          = match parse_number col (amount_text c) with
            | Some x => Number x
            | None => if copy_on_write then Missing NaN else Number zero
            end)
    /\ (forall s x,
          parse_number col (Text (PyStr.replace "," "" s)) = Some x ->
          amount_cell col (Text s) = Number x)
    /\ (forall x,
          parse_number col (Text (PyStr.replace "," "" (str_of_num x))) = Some x ->
          amount_cell col (Number x) = Number x)
    /\ (copy_on_write = false ->
        (forall c, parse_number col (amount_text c) = None ->
                   amount_cell col c = Number zero)
        /\ (forall k, parse_number col (Text (str_of_na k)) = None ->
                      amount_cell col (Missing k) = Number zero)
        /\ (forall c, exists x, amount_cell col c = Number x)
        /\ (forall t res lg,
              clean_data_on t = Returns (res, lg) ->
              forall j, nth_error (columns res) j = Some "amount" ->
              forall r, In r (rows res) ->
              forall c, nth_error r j = Some c -> exists x, c = Number x))
    /\ (copy_on_write = true ->
        forall c, parse_number col (amount_text c) = None ->
                  amount_cell col c = Missing NaN).
Proof.
  intros Hc W. rewrite fix_amount_block_spec.
  unfold stage, fix_amount. simpl. rewrite Hc.
  destruct (positions "amount" (columns d)) as [|i [|j ps]] eqn:P;
    try discriminate.
  intros [= <- <-]. exists i.
  pose proof (well_formed_cell d "amount" i W P) as Wi.
  rewrite (amount_in_well_formed _ _ Wi).
  split; [reflexivity|]. split; [reflexivity|]. split; [reflexivity|].
  split; [now apply column_values_apply|].
  split; [reflexivity|]. split; [intro c; apply amount_cell_eq|].
  split; [intros s x E; rewrite amount_cell_eq, amount_text_eq;
          simpl str_of_cell; now rewrite E|].
  split; [intros x E; rewrite amount_cell_eq, amount_text_eq;
          simpl str_of_cell; now rewrite E|].
  split.
  - intro Hcow. split; [|split; [|split]].
    + intros c E. now rewrite amount_cell_eq, E, Hcow.
    + intros k E. now rewrite amount_cell_eq, amount_text_missing, E, Hcow.
    + intro c. now apply amount_cell_numeric.
    + intros t res lg0 H j Hj.
      apply clean_data_on_iff in H as ((P3 & _) & -> & _). simpl in *.
      set (cols := map normalize_label (columns t)) in *.
      change (column_holds (fun c => exists x, c = Number x) j
                (cleaned_rows cols (rows t))).
      unfold cleaned_rows.
      apply (column_holds_date_other _ "amount"); [discriminate|assumption|].
      apply (column_holds_stage_other _ "status" "amount");
        [discriminate|assumption|].
      unfold stage_rows, stage_passes in *.
      pose proof (nth_positions _ _ _ Hj) as Hin.
      destruct (positions "amount" cols) as [|i' [|j' ps']]; try contradiction.
      destruct Hin as [->|[]].
      apply column_holds_apply_same. intro c. unfold amount_in.
      now apply amount_cell_numeric.
  - intros Hcow c E. now rewrite amount_cell_eq, E, Hcow.
Qed.

(* ================================================================== *)
(** ** Block E: the dates *)
(* ================================================================== *)

Lemma to_datetime_cell_cases col c :
  to_datetime_cell col c = Missing NaT
  \/ exists d, to_datetime_cell col c = Date d.
Proof.
  destruct c as [s|x|d|k]; simpl; eauto;
    destruct (parse_datetime col _); eauto.
Qed.

Lemma cell_nth_error r i c :
  cell r i = c -> isna c = false -> nth_error r i = Some c.
Proof.
  unfold cell. intros H Hc.
  destruct (nth_error r i) as [c'|] eqn:E.
  - now rewrite (nth_error_nth _ _ _ E) in H; subst.
  - apply nth_error_None in E. rewrite nth_overflow in H by assumption.
    now subst.
Qed.

Lemma dropna_rows_one i rs :
  dropna_rows [i] rs = filter (fun r => negb (isna (cell r i))) rs.
Proof.
  unfold dropna_rows. apply filter_ext. intro r. simpl. apply andb_true_r.
Qed.


Lemma in_dropna_apply_column i col rs r :
  In r (dropna_rows [i] (apply_column i (to_datetime_cell col) rs)) ->
  exists d, nth_error r i = Some (Date d).
Proof.
  rewrite dropna_rows_one. intro H. apply filter_In in H as [Hin Hna].
  apply negb_true_iff in Hna.
  apply in_map_iff in Hin as (r0 & <- & _).
  rewrite cell_set_cell in Hna.
  destruct (i <? length r0) eqn:L0; [|discriminate].
  destruct (to_datetime_cell_cases col (cell r0 i)) as [E|[d E]];
    rewrite E in *; [discriminate|].
  exists d. apply cell_nth_error; [|reflexivity].
  now rewrite cell_set_cell, L0.
Qed.



(* ================================================================== *)
(** ** Block D: the status *)
(* ================================================================== *)

(** A cell as [str.title] leaves it: a text that is its own title case,
    or a value that is not available. *)
Definition titled (c : Cell) : Prop :=
  match c with
  | Text s => PyStr.title s = s
  | Missing _ => True
  | _ => False
  end.

Lemma str_title_cell_titled col c : titled (str_title_cell col c).
Proof.
  destruct c; simpl; trivial.
  - apply PyStr.title_idem.
  - now destruct (str_keeps_na col).
Qed.

Lemma titled_keeps_na col :
  Forall titled col -> str_keeps_na col = true.
Proof.
  intro H. unfold str_keeps_na.
  assert (E : existsb is_text col || forallb isna col = true).
  { induction H as [|c col Hc _ IH]; trivial. simpl.
    destruct c; simpl in *; trivial; contradiction. }
  now rewrite E.
Qed.

Lemma str_title_cell_fix col c :
  Forall titled col -> titled c -> str_title_cell col c = c.
Proof.
  intros Hcol Hc. destruct c; simpl in *; try contradiction; trivial.
  - now rewrite Hc.
  - now rewrite (titled_keeps_na col Hcol).
Qed.


(* ================================================================== *)
(** ** Equal rows in the result *)
(* ================================================================== *)

Lemma stage_rows_absent name f cols rs :
  contains name cols = false -> stage_rows name f cols rs = rs.
Proof.
  intro H. unfold stage_rows. apply (positions_from_nil 0) in H.
  unfold positions. now rewrite H.
Qed.

Lemma date_rows_absent cols rs :
  contains "date" cols = false -> date_rows cols rs = rs.
Proof.
  intro H. unfold date_rows. apply (positions_from_nil 0) in H.
  unfold positions. now rewrite H.
Qed.

(** C4, as the code has it.  The result has at most as many rows as the
    argument; the frame that block B produces has no two equal rows; the
    rows of the result are made, one each and in order, from rows of the
    argument no two of which are equal, and differ from them under the
    labels amount, status and date only, where blocks C, D and E may well
    make two of them equal.  Without these three columns the result has
    no two equal rows. *)
Theorem dedup_invariant t out report_log :
  clean_data_on t = Returns (out, report_log) ->
  length (rows out) <= length (rows t)
  /\ (forall h df d lg,
        nth_error h df = Some d ->
        exists d',
          remove_duplicates_block df lg h
          = (Returns (length h,
                      lg ++ [msg_removed (count_true (duplicated (rows d)))]),
             h ++ [d'])
          /\ NoDup (rows d'))
  /\ (exists kept,
        NoDup kept
        /\ subsequence kept (rows t)
        /\ Forall2 (same_elsewhere (columns out)) kept (rows out))
  /\ (contains "amount" (columns out) = false ->
      contains "status" (columns out) = false ->
      contains "date" (columns out) = false ->
      NoDup (rows out)).
Proof.
  intro H. apply clean_data_on_iff in H as (_ & -> & _). simpl.
  set (cols := map normalize_label (columns t)).
  destruct (cleaned_rows_origin cols (rows t)) as (kept & Hs & Hf).
  assert (Hsub : subsequence kept (rows t)).
  { apply (subsequence_trans kept (kept_after [] (rows t)) (rows t)); trivial.
    apply subsequence_kept_after. }
  split; [|split; [|split]].
  - rewrite (Forall2_length_le _ _ _ Hf). now apply subsequence_length.
  - intros h df d lg Hd. exists (drop_duplicates_frame d). split.
    + rewrite (remove_duplicates_block_spec h df d lg Hd).
      now rewrite <- removed_count.
    + apply (NoDup_kept_after [] (rows d)).
  - exists kept. repeat split; trivial.
    apply (subsequence_NoDup kept (kept_after [] (rows t))); trivial.
    apply NoDup_kept_after.
  - intros Ha Hs' Hd. unfold cleaned_rows.
    rewrite date_rows_absent, !stage_rows_absent by assumption.
    apply NoDup_kept_after.
Qed.

(* ================================================================== *)
(** ** Running the pipeline on its own result *)
(* ================================================================== *)

Definition at_most_once (name : string) (cols : list string) : Prop :=
  match positions name cols with
  | [] | [_] => True
  | _ => False
  end.

Lemma stage_passes_once name check cols rs :
  stage_passes name check cols rs -> at_most_once name cols.
Proof.
  unfold stage_passes, at_most_once.
  now destruct (positions name cols) as [|i [|j ps]].
Qed.

Lemma column_holds_incl P i rs rs' :
  (forall r, In r rs' -> In r rs) -> column_holds P i rs -> column_holds P i rs'.
Proof. intros Hin H r Hr. apply H, Hin, Hr. Qed.

Lemma filter_all {A : Type} (p : A -> bool) l :
  (forall x, In x l -> p x = true) -> filter p l = l.
Proof.
  induction l as [|x l IH]; simpl; trivial. intro H.
  rewrite (H x) by now left. f_equal. apply IH. intros y Hy. apply H. now right.
Qed.

(** A stage that finds its column already in normal form changes nothing
    and lets the run go on. *)
Lemma stage_rerun name f check cols rs :
  at_most_once name cols ->
  (forall i, positions name cols = [i] ->
             column_holds (fun c => f rs i c = c) i rs
             /\ check (column_values i rs) = true) ->
  stage_rows name f cols rs = rs /\ stage_passes name check cols rs.
Proof.
  unfold at_most_once, stage_rows, stage_passes.
  destruct (positions name cols) as [|i [|j ps]]; intros Ho H; try ptauto.
  destruct (H i eq_refl) as [Hf Hc]. split; trivial.
  now apply apply_column_fix.
Qed.

(** Every row holds a date in its cell [k]. *)
Definition dated (k : nat) (rs : list Row) : Prop :=
  forall r, In r rs -> exists d, nth_error r k = Some (Date d).

Lemma date_rerun cols rs :
  at_most_once "date" cols ->
  (forall k, positions "date" cols = [k] -> dated k rs) ->
  date_rows cols rs = rs /\ stage_passes "date" (fun _ => true) cols rs.
Proof.
  unfold at_most_once, date_rows, stage_passes, date_in.
  destruct (positions "date" cols) as [|k [|j ps]]; intros Ho H; try ptauto.
  split; trivial. specialize (H k eq_refl).
  rewrite apply_column_fix.
  - rewrite dropna_rows_one. apply filter_all. intros r Hr.
    destruct (H r Hr) as [d Hd]. now rewrite (nth_error_cell r k _ Hd).
  - intros r Hr c Hc. destruct (H r Hr) as [d Hd].
    rewrite Hd in Hc. now injection Hc as <-.
Qed.

(** A stage leaves the columns of the other labels as they are. *)
Lemma cell_set_cell_other i j c r : i <> j -> cell (set_cell i c r) j = cell r j.
Proof.
  intro H. unfold cell.
  revert i j H; induction r as [|x r IH]; intros [|i] [|j] H; simpl; trivial.
  - congruence.
  - apply IH. congruence.
Qed.

Lemma column_values_stage_other name name' f cols rs j :
  name <> name' -> nth_error cols j = Some name' ->
  column_values j (stage_rows name f cols rs) = column_values j rs.
Proof.
  intros Hne Hj. unfold stage_rows.
  destruct (positions name cols) as [|i [|i' ps]] eqn:E; trivial.
  unfold column_values, apply_column. rewrite map_map. apply map_ext.
  intro r. apply cell_set_cell_other.
  apply (positions_apart name name' cols); trivial. rewrite E. now left.
Qed.

Lemma dated_stage_other name f cols rs k :
  name <> "date" -> nth_error cols k = Some "date" ->
  dated k rs -> dated k (stage_rows name f cols rs).
Proof.
  intros Hne Hk H. unfold stage_rows.
  destruct (positions name cols) as [|i [|i' ps]] eqn:E; trivial.
  intros r Hr. apply in_map_iff in Hr as (r0 & <- & Hr0).
  rewrite nth_error_set_cell_other; [now apply H|].
  apply (positions_apart name "date" cols); trivial. rewrite E. now left.
Qed.

(** The status and date columns of a result. *)
Lemma cleaned_rows_status cols rs j :
  positions "status" cols = [j] ->
  column_holds titled j (cleaned_rows cols rs).
Proof.
  intro P.
  assert (Hj : nth_error cols j = Some "status")
    by (apply positions_nth; rewrite P; now left).
  unfold cleaned_rows.
  apply (column_holds_date_other _ "status"); [discriminate|assumption|].
  unfold stage_rows at 1. rewrite P. apply column_holds_apply_same.
  intro c. apply str_title_cell_titled.
Qed.

Lemma titled_column j rs :
  column_holds titled j rs -> Forall titled (column_values j rs).
Proof.
  intro H. apply Forall_forall. intros c Hc.
  apply in_map_iff in Hc as (r & <- & Hr).
  destruct (nth_error r j) as [c|] eqn:E.
  - rewrite (nth_error_cell r j c E). now apply (H r Hr).
  - unfold cell. apply nth_error_None in E.
    now rewrite nth_overflow.
Qed.

Lemma status_in_fix j rs :
  column_holds titled j rs ->
  column_holds (fun c => status_in rs j c = c) j rs.
Proof.
  intros H r Hr c Hc. apply str_title_cell_fix.
  - now apply titled_column.
  - now apply (H r Hr).
Qed.

Lemma cleaned_rows_date cols rs k :
  positions "date" cols = [k] -> dated k (cleaned_rows cols rs).
Proof.
  intros P r. unfold cleaned_rows, date_rows, date_in. rewrite P.
  apply in_dropna_apply_column.
Qed.

(** The rows of a result, cleaned again, lose the rows that the first
    cleaning made the same as a row above, and have their amounts read
    again; nothing else changes. *)
Lemma cleaned_rows_again cols rs :
  clean_passes cols rs ->
  (forall j, positions "status" cols = [j] ->
     str_accessor_ok (column_values j (kept_after [] (cleaned_rows cols rs)))
     = true) ->
  clean_passes cols (cleaned_rows cols rs)
  /\ cleaned_rows cols (cleaned_rows cols rs)
     = stage_rows "amount" amount_in cols (kept_after [] (cleaned_rows cols rs)).
Proof.
  intros (P3 & P4 & P5) Hstr.
  apply stage_passes_once in P4, P5.
  set (out := cleaned_rows cols rs) in *.
  set (rs' := kept_after [] out) in *.
  set (rs3 := stage_rows "amount" amount_in cols rs').
  assert (Hin : forall r, In r rs' -> In r out)
    by (intros r Hr; now apply in_kept_after in Hr).
  destruct (stage_rerun "status" status_in str_accessor_ok cols rs3 P4)
    as [E4 Q4].
  { intros j Pj.
    assert (Hj : nth_error cols j = Some "status")
      by (apply positions_nth; rewrite Pj; now left).
    split.
    - apply status_in_fix.
      apply (column_holds_stage_other _ "amount" "status");
        [discriminate|assumption|].
      apply (column_holds_incl _ j out rs' Hin), cleaned_rows_status, Pj.
    - unfold rs3.
      rewrite (column_values_stage_other "amount" "status");
        [now apply Hstr|discriminate|assumption]. }
  destruct (date_rerun cols rs3 P5) as [E5 Q5].
  { intros k Pk.
    assert (Hk : nth_error cols k = Some "date")
      by (apply positions_nth; rewrite Pk; now left).
    apply dated_stage_other; [discriminate|assumption|].
    intros r Hr. apply (cleaned_rows_date cols rs k Pk), Hin, Hr. }
  unfold clean_passes, cleaned_rows. fold out. fold rs'. fold rs3.
  rewrite !E4, !E5.
  repeat split; trivial.
Qed.

Lemma map_normalize_label_idem cols :
  map normalize_label (map normalize_label cols) = map normalize_label cols.
Proof.
  rewrite map_map. apply map_ext. intro c. apply normalize_label_idem.
Qed.

(** What a second run computes from the result of the first. *)
Definition second_run (out : DataFrame) : DataFrame :=
  mkFrame (columns out)
          (stage_rows "amount" amount_in (columns out)
                      (rows (drop_duplicates_frame out))).

Lemma clean_data_on_again t out lg :
  clean_data_on t = Returns (out, lg) ->
  (forall j, positions "status" (columns out) = [j] ->
     str_accessor_ok (column_values j (rows (drop_duplicates_frame out)))
     = true) ->
  clean_data_on out
  = Returns (second_run out,
             [msg_headers; msg_removed (count_true (duplicated (rows out)))]
             ++ skipn 2 lg).
Proof.
  intros H Hstr. apply clean_data_on_iff in H as (P & -> & ->).
  apply clean_data_on_iff. simpl columns in *; simpl rows in *.
  rewrite map_normalize_label_idem.
  destruct (cleaned_rows_again _ _ P Hstr) as [P' E].
  split; [exact P'|]. split.
  - unfold second_run. simpl. now rewrite E.
  - unfold cleaned_log. rewrite !removed_count. reflexivity.
Qed.

(** The amounts of the rows read back as themselves. *)
Definition amounts_read_back (cols : list string) (rs : list Row) : Prop :=
  forall i, positions "amount" cols = [i] ->
            column_holds (fun c => amount_in rs i c = c) i rs.

Lemma amounts_read_back_fix cols rs :
  amounts_read_back cols rs -> stage_rows "amount" amount_in cols rs = rs.
Proof.
  unfold amounts_read_back, stage_rows. intro H.
  destruct (positions "amount" cols) as [|i [|i' ps]]; trivial.
  now apply apply_column_fix, H.
Qed.

(** C1, as the code has it.  [clean_data] run on the frame it returned,
    for a frame with columns whose labels and status texts are ASCII
    strings, [.str] being granted on the status column of the result
    (pandas grants it on a column that holds a string): the second run
    returns the first result with the rows dropped that are the same as a
    row above, the first of them kept, and with every amount printed and
    read again.  The labels, the order of the rows and the cells of the
    other columns, status and date among them, are as they were, and no
    row goes for its date.  Where the amounts read back as themselves the
    second result is the first without those rows, a further run returns
    it unchanged, and when moreover no two rows of the first result are
    the same the second result is the first. *)
Theorem rerun_on_result t out report_log :
  clean_data_on t = Returns (out, report_log) ->
  columns t <> [] ->
  Forall (fun name => PyStr.ascii_text name = true) (columns t) ->
  (forall j, positions "status" (columns out) = [j] ->
     column_holds (fun c => ascii_cell c = true) j (rows out)
     /\ str_accessor_ok (column_values j (rows (drop_duplicates_frame out)))
        = true) ->
  let out2 := drop_duplicates_frame out in
  let log2 :=
    [msg_headers; msg_removed (count_true (duplicated (rows out)))]
    ++ skipn 2 report_log in
  clean_data_on out = Returns (second_run out, log2)
  /\ columns (second_run out) = columns out
  /\ columns out2 = columns out
  /\ distinct_rows (rows out2)
  /\ subsequence (rows out2) (rows out)
  /\ (forall r, In r (rows out) ->
                exists r', In r' (rows out2) /\ same_row r' r = true)
  /\ length (rows (second_run out)) = length (rows out2)
  /\ Forall2 (fun r r' =>
                length r' = length r
                /\ forall j name,
                     nth_error (columns out) j = Some name ->
                     name <> "amount" -> nth_error r' j = nth_error r j)
             (rows out2) (rows (second_run out))
  /\ (forall i, positions "amount" (columns out) = [i] ->
        rows (second_run out)
        = apply_column i (amount_in (rows out2) i) (rows out2))
  /\ (contains "amount" (columns out) = false -> second_run out = out2)
  /\ (amounts_read_back (columns out) (rows out2) ->
      second_run out = out2
      /\ clean_data_on out2
         = Returns (out2, [msg_headers; msg_removed 0] ++ skipn 2 report_log)
      /\ (distinct_rows (rows out) -> out2 = out)).
Proof.
  intros H _ _ Hst out2 log2.
  assert (Hstr : forall j, positions "status" (columns out) = [j] ->
            str_accessor_ok (column_values j (rows out2)) = true)
    by (intros j Pj; now destruct (Hst j Pj)).
  pose proof (clean_data_on_again t out report_log H Hstr) as H2.
  assert (Hd2 : distinct_rows (rows out2))
    by apply (distinct_kept_after [] (rows out)).
  split; [exact H2|]. split; [reflexivity|]. split; [reflexivity|].
  split; [exact Hd2|].
  split; [apply (subsequence_kept_after [] (rows out))|].
  split; [intros r Hr; now apply (kept_after_covers [] (rows out))|].
  split.
  { unfold second_run, stage_rows. simpl.
    destruct (positions "amount" (columns out)) as [|i [|i' ps]]; trivial.
    apply length_apply_column. }
  split.
  { unfold second_run, stage_rows. simpl.
    assert (Hid : forall l : list Row,
              Forall2 (fun r r' : Row =>
                         length r' = length r
                         /\ forall j name,
                              nth_error (columns out) j = Some name ->
                              name <> "amount" ->
                              nth_error r' j = nth_error r j) l l).
    { intro l. rewrite <- (map_id l) at 2.
      apply Forall2_map_same. intro r. split; trivial. }
    destruct (positions "amount" (columns out)) as [|i [|i' ps]] eqn:P;
      [apply Hid| |apply Hid].
    apply Forall2_map_same. intro r. split; [apply length_set_cell|].
    intros j name Hj Hne. apply nth_error_set_cell_other.
    intros <-. apply Hne.
    assert (Hi : nth_error (columns out) i = Some "amount")
      by (apply positions_nth; rewrite P; now left).
    congruence. }
  split.
  { intros i P. unfold second_run, stage_rows. simpl. now rewrite P. }
  split.
  { intro Hc. unfold second_run. now rewrite stage_rows_absent. }
  intro Hrb.
  assert (E : second_run out = out2).
  { unfold second_run. fold out2.
    now rewrite (amounts_read_back_fix _ _ Hrb). }
  split; [exact E|]. rewrite E in H2.
  assert (F : drop_duplicates_frame out2 = out2)
    by now apply drop_duplicates_frame_fix.
  split.
  - assert (Hstr2 : forall j, positions "status" (columns out2) = [j] ->
              str_accessor_ok
                (column_values j (rows (drop_duplicates_frame out2))) = true)
      by (rewrite F; exact Hstr).
    rewrite (clean_data_on_again out out2 _ H2 Hstr2).
    unfold second_run. rewrite F.
    change (columns out2) with (columns out).
    rewrite (amounts_read_back_fix _ _ Hrb).
    assert (E0 : count_true (duplicated (rows out2)) = 0).
    { pose proof (length_kept_after [] (rows out2)) as L.
      rewrite (kept_after_fix [] (rows out2) Hd2) in L by auto.
      unfold duplicated. lia. }
    rewrite E0. reflexivity.
  - apply drop_duplicates_frame_fix.
Qed.

(* ================================================================== *)
(** ** The caller's frame *)
(* ================================================================== *)

Lemma clean_data_store h df t :
  nth_error h df = Some t ->
  exists tl, snd (clean_data df h) = store h df (rename_frame t) ++ tl.
Proof.
  intro Ht. pose proof (clean_data_spec h df t Ht) as S.
  destruct (clean_table t) as [[out lg]|e].
  - destruct S as (r & tl & E & _). exists tl. now rewrite E.
  - destruct S as (tl & E). exists tl. now rewrite E.
Qed.

Lemma copy_spec h df t :
  nth_error h df = Some t -> copy df h = (Returns (length h), h ++ [t]).
Proof.
  intro Ht. unfold copy.
  erewrite bind_returns
    by exact (read_at h df t (fun d => d) Ht).
  reflexivity.
Qed.

Lemma run_pipeline_spec h df_raw t :
  nth_error h df_raw = Some t ->
  run_pipeline df_raw h = clean_data (length h) (h ++ [t]).
Proof.
  intro Ht. unfold run_pipeline.
  now erewrite bind_returns by (apply copy_spec; eassumption).
Qed.

(** C5, as the code has it.  [clean_data] renames the columns of the
    frame it is given, in that very object, and changes nothing else of it
    (its rows stay) and no other frame of the store; whatever else it
    builds is in new objects.  The frame of the caller stays as it was
    because the call site passes a copy, [clean_data(df_raw.copy())]:
    after [run_pipeline] every frame that was in the store, [df_raw]
    among them, is unchanged, and the result is a new object holding what
    [clean_data] computes from the frame. *)
Theorem caller_table h df t :
  nth_error h df = Some t ->
  nth_error (snd (clean_data df h)) df
  = Some (mkFrame (map normalize_label (columns t)) (rows t))
  /\ (forall r, r <> df -> r < length h ->
                nth_error (snd (clean_data df h)) r = nth_error h r)
  /\ (forall r, r < length h ->
                nth_error (snd (run_pipeline df h)) r = nth_error h r)
  /\ match clean_table t with
     | Returns (out, lg) =>
         exists r,
           fst (run_pipeline df h) = Returns (r, lg)
           /\ length h < r
           /\ nth_error (snd (run_pipeline df h)) r = Some out
     | Raises e => fst (run_pipeline df h) = Raises e
     end.
Proof.
  intro Ht.
  assert (Hlt : df < length h) by (apply nth_error_Some; congruence).
  destruct (clean_data_store h df t Ht) as (tl & E).
  assert (Hlast : nth_error (h ++ [t]) (length h) = Some t)
    by (now rewrite nth_error_app2, Nat.sub_diag).
  split; [|split; [|split]].
  - rewrite E, nth_error_app1 by (rewrite length_store; assumption).
    now apply nth_error_store_same.
  - intros r Hne Hr.
    rewrite E, nth_error_app1 by (rewrite length_store; assumption).
    now apply nth_error_store_other.
  - intros r Hr. rewrite (run_pipeline_spec h df t Ht).
    destruct (clean_data_store (h ++ [t]) (length h) t Hlast) as (tl' & E').
    rewrite E', store_last, <- app_assoc, nth_error_app1; trivial.
  - rewrite (run_pipeline_spec h df t Ht).
    pose proof (clean_data_spec (h ++ [t]) (length h) t Hlast) as S.
    destruct (clean_table t) as [[out lg]|e].
    + destruct S as (r & tl' & E' & Hr & Hle). exists r.
      rewrite E'. simpl. repeat split; trivial.
      rewrite length_app in Hle. simpl in Hle. lia.
    + destruct S as (tl' & E'). now rewrite E'.
Qed.

(* ================================================================== *)
(** ** When [clean_data] returns, and when it raises *)
(* ================================================================== *)

(** Some row holds a string in its cell [j]. *)
Definition has_text (j : nat) (rs : list Row) : Prop :=
  exists r s, In r rs /\ nth_error r j = Some (Text s).

Lemma accessor_on_text j rs :
  has_text j rs -> str_accessor_ok (column_values j rs) = true.
Proof using str_accessor_text.
  intros (r & s & Hr & Hj). apply str_accessor_text, existsb_exists.
  exists (Text s). split; trivial.
  unfold column_values. apply in_map_iff. exists r. split; trivial.
  now apply nth_error_cell.
Qed.

(** A string of the column is still there once the duplicates are gone. *)
Lemma has_text_kept j rs : has_text j rs -> has_text j (kept_after [] rs).
Proof.
  intros (r & s & Hr & Hj).
  destruct (kept_after_covers [] rs r Hr eq_refl) as (y & Hy & E).
  assert (Hlt : j < length y).
  { rewrite (same_row_length _ _ E). apply nth_error_Some. congruence. }
  apply nth_error_Some in Hlt.
  destruct (nth_error y j) as [c|] eqn:Ey; [|congruence].
  exists y, s. split; trivial.
  pose proof (same_row_nth y r j c (Text s) E Ey Hj) as Hc.
  apply same_cell_spec in Hc as [->|[_ Hc]]; [exact Ey|discriminate].
Qed.

Lemma has_text_stage_other name f cols rs j :
  name <> "status" -> nth_error cols j = Some "status" ->
  has_text j rs -> has_text j (stage_rows name f cols rs).
Proof.
  intros Hne Hj (r & s & Hr & Hs). unfold stage_rows.
  destruct (positions name cols) as [|i [|i' ps]] eqn:E;
    try (now exists r, s).
  exists (set_cell i (f rs i (cell r i)) r), s. split.
  - unfold apply_column. apply in_map_iff. now exists r.
  - rewrite nth_error_set_cell_other; trivial.
    apply (positions_apart name "status" cols); trivial. rewrite E. now left.
Qed.

Lemma at_most_once_passes name check cols rs :
  at_most_once name cols ->
  (forall i, positions name cols = [i] -> check (column_values i rs) = true) ->
  stage_passes name check cols rs.
Proof.
  unfold at_most_once, stage_passes.
  destruct (positions name cols) as [|i [|j ps]]; auto.
Qed.

(** The run goes through when each of the three labels occurs at most
    once and [.str] is granted on the status column. *)
Lemma clean_passes_intro cols rs :
  at_most_once "amount" cols ->
  at_most_once "status" cols ->
  at_most_once "date" cols ->
  (forall j, positions "status" cols = [j] ->
     str_accessor_ok
       (column_values j (stage_rows "amount" amount_in cols (kept_after [] rs)))
     = true) ->
  clean_passes cols rs.
Proof.
  intros Ha Hs Hd Hcol. unfold clean_passes. split; [|split].
  - now apply at_most_once_passes.
  - now apply at_most_once_passes.
  - now apply at_most_once_passes.
Qed.

(** X4. [clean_data] on a frame with columns returns, and returns the
    frame [cleaned_rows] under the normalized labels with the log
    [cleaned_log], whenever each of the labels amount, status and date
    occurs at most once among the normalized labels and the status
    column, when there is one, holds a string in some row: pandas then
    grants [.str] on it, whatever else it holds. *)
Theorem clean_data_returns t :
  let cols := map normalize_label (columns t) in
  columns t <> [] ->
  at_most_once "amount" cols ->
  at_most_once "status" cols ->
  at_most_once "date" cols ->
  (forall j, positions "status" cols = [j] -> has_text j (rows t)) ->
  clean_data_on t
  = Returns (mkFrame cols (cleaned_rows cols (rows t)),
             cleaned_log cols (rows t)).
Proof using str_accessor_text.
  intros cols _ Ha Hs Hd Hcol. apply clean_data_on_iff.
  split; [|split; reflexivity]. apply clean_passes_intro; trivial.
  intros j Pj. apply accessor_on_text.
  apply has_text_stage_other;
    [discriminate | apply positions_nth; rewrite Pj; now left |].
  now apply has_text_kept, Hcol.
Qed.

Lemma stage_passes_twice name check cols rs i j ps :
  positions name cols = i :: j :: ps -> ~ stage_passes name check cols rs.
Proof. intros P H. unfold stage_passes in H. now rewrite P in H. Qed.

(** X3. Two columns whose labels both normalize to amount, to status or
    to date make [clean_data] raise: it never returns a frame then, and
    for the label amount the exception is the AttributeError of the
    missing [.str] on a frame. *)
Theorem role_label_collision t name :
  let cols := map normalize_label (columns t) in
  name = "amount" \/ name = "status" \/ name = "date" ->
  2 <= length (positions name cols) ->
  (forall out lg, clean_data_on t <> Returns (out, lg))
  /\ (name = "amount" -> clean_data_on t = Raises AttributeError).
Proof.
  intros cols Hname Hlen.
  destruct (positions name cols) as [|i [|j ps]] eqn:P;
    try (simpl in Hlen; lia).
  split.
  - intros out lg H. apply clean_data_on_iff in H as ((P3 & P4 & P5) & _).
    destruct Hname as [ -> | [ -> | -> ] ];
      [ apply (stage_passes_twice _ _ _ _ _ _ _ P) in P3
      | apply (stage_passes_twice _ _ _ _ _ _ _ P) in P4
      | apply (stage_passes_twice _ _ _ _ _ _ _ P) in P5 ]; assumption.
  - intros ->. rewrite clean_data_on_eq.
    unfold clean_table, and_then, stage, fix_amount. simpl.
    fold cols. rewrite contains_positions, P. reflexivity.
Qed.

Lemma stage_rows_nil name f cols : stage_rows name f cols [] = [].
Proof. unfold stage_rows. now destruct (positions name cols) as [|i [|j ps]]. Qed.

Lemma date_rows_nil cols : date_rows cols [] = [].
Proof. unfold date_rows. now destruct (positions "date" cols) as [|i [|j ps]]. Qed.

(** X5. A frame with columns and without rows is no error when pandas
    grants [.str] on its empty status column, as it does for a column of
    dtype object:
    with each of the three labels at most once, [clean_data] returns the
    frame without rows under the normalized labels, and logs zero
    duplicates and a line for every block whose column is there.  When
    pandas refuses [.str] on the empty status column, as it does for a
    column of floats, [clean_data] raises AttributeError. *)
Theorem empty_frame_cleaned t :
  let cols := map normalize_label (columns t) in
  columns t <> [] ->
  rows t = [] ->
  at_most_once "amount" cols ->
  at_most_once "status" cols ->
  at_most_once "date" cols ->
  (contains "status" cols = false \/ str_accessor_ok [] = true ->
   clean_data_on t
   = Returns (mkFrame cols [],
              [msg_headers; msg_removed 0]
              ++ (if contains "amount" cols then [msg_amount] else [])
              ++ (if contains "status" cols then [msg_status] else [])
              ++ (if contains "date" cols then [msg_date] else [])))
  /\ (contains "status" cols = true -> str_accessor_ok [] = false ->
      clean_data_on t = Raises AttributeError).
Proof.
  intros cols _ Hr Ha Hs Hd. split.
  - intro Hok. apply clean_data_on_iff. fold cols. rewrite Hr.
    split; [|split].
    + apply clean_passes_intro; trivial. intros j Pj.
      change (kept_after [] []) with (@nil Row). rewrite stage_rows_nil.
      destruct Hok as [Hno|Hok]; [|exact Hok].
      rewrite contains_positions, Pj in Hno. discriminate.
    + unfold cleaned_rows. change (kept_after [] []) with (@nil Row).
      now rewrite !stage_rows_nil, date_rows_nil.
    + reflexivity.
  - intros Hc Hno. rewrite clean_data_on_eq.
    unfold clean_table, rename_frame, drop_duplicates_frame. rewrite Hr.
    simpl. fold cols.
    assert (E3 : stage "amount" fix_amount msg_amount
                   (mkFrame cols [], [msg_headers; msg_removed 0])
                 = Returns (mkFrame cols [],
                            [msg_headers; msg_removed 0]
                            ++ stage_log "amount" msg_amount cols)).
    { unfold stage, fix_amount, stage_log. simpl.
      rewrite contains_positions. unfold at_most_once in Ha.
      destruct (positions "amount" cols) as [|i [|i' ps]]; simpl;
        trivial; contradiction. }
    change (msg_removed (0 - 0)) with (msg_removed 0).
    rewrite E3. simpl and_then.
    assert (E4 : forall lg, stage "status" fix_status msg_status
                              (mkFrame cols [], lg)
                            = Raises AttributeError).
    { intro lg. unfold stage, fix_status. simpl. rewrite Hc.
      rewrite contains_positions in Hc. unfold at_most_once in Hs.
      destruct (positions "status" cols) as [|j [|j' ps]];
        try discriminate; try contradiction.
      simpl. now rewrite Hno. }
    now rewrite E4.
Qed.

Lemma length_stage_rows name f cols rs :
  length (stage_rows name f cols rs) = length rs.
Proof.
  unfold stage_rows.
  destruct (positions name cols) as [|i [|j ps]]; trivial.
  apply length_apply_column.
Qed.

Lemma length_date_rows cols rs : length (date_rows cols rs) <= length rs.
Proof.
  unfold date_rows.
  destruct (positions "date" cols) as [|i [|j ps]]; trivial.
  unfold dropna_rows.
  etransitivity; [apply filter_length_le|].
  now rewrite length_apply_column.
Qed.

(** X6. Row accounting: the rows of the result and the duplicates the log
    counts never exceed the rows of the argument, and make them up exactly
    when there is no date column, the date block being the only other one
    that drops rows. *)
Theorem row_accounting t out report_log :
  clean_data_on t = Returns (out, report_log) ->
  length (rows out) + count_true (duplicated (rows t)) <= length (rows t)
  /\ (contains "date" (columns out) = false ->
      length (rows out) + count_true (duplicated (rows t)) = length (rows t))
  /\ nth_error report_log 1
     = Some (msg_removed (count_true (duplicated (rows t)))).
Proof.
  intro H. apply clean_data_on_iff in H as (_ & -> & ->). simpl.
  set (cols := map normalize_label (columns t)).
  pose proof (length_kept_after [] (rows t)) as L.
  fold (duplicated (rows t)) in L.
  unfold cleaned_rows.
  split; [|split].
  - pose proof (length_date_rows cols
                  (stage_rows "status" status_in cols
                     (stage_rows "amount" amount_in cols
                        (kept_after [] (rows t))))) as D.
    rewrite !length_stage_rows in D. lia.
  - intro Hd. rewrite date_rows_absent, !length_stage_rows by assumption.
    exact L.
  - now rewrite removed_count.
Qed.

(** X7. Block B is idempotent: the frame it produces has no duplicates
    left, so block B run on that frame produces an equal frame and logs
    zero removed rows. *)
Theorem remove_duplicates_twice t :
  let d := drop_duplicates_frame t in
  (forall h df lg,
     nth_error h df = Some t ->
     snd (remove_duplicates_block df lg h) = h ++ [d])
  /\ drop_duplicates_frame d = d
  /\ forall h' r lg',
       nth_error h' r = Some d ->
       remove_duplicates_block r lg' h'
       = (Returns (length h', lg' ++ [msg_removed 0]), h' ++ [d]).
Proof.
  intro d.
  assert (Hnd : distinct_rows (rows d))
    by apply (distinct_kept_after [] (rows t)).
  assert (E : drop_duplicates_frame d = d)
    by now apply drop_duplicates_frame_fix.
  split; [|split; [exact E|]].
  - intros h df lg Ht.
    now rewrite (remove_duplicates_block_spec h df t lg Ht).
  - intros h' r lg' Hr.
    rewrite (remove_duplicates_block_spec h' r d lg' Hr), E.
    now rewrite Nat.sub_diag.
Qed.

Lemma rename_frame_idem d : rename_frame (rename_frame d) = rename_frame d.
Proof.
  unfold rename_frame. simpl. now rewrite map_normalize_label_idem.
Qed.

Lemma store_store h r d d' : store (store h r d) r d' = store h r d'.
Proof.
  revert r; induction h as [|x h IH]; intros [|r]; simpl; trivial.
  now rewrite IH.
Qed.

(** X11. Block A is idempotent: run again on the frame it has renamed, it
    leaves the store as it is, every label being its own normal form. *)
Theorem standardize_columns_twice h df t lg lg' :
  nth_error h df = Some t ->
  let h1 := snd (standardize_columns_block df lg h) in
  standardize_columns_block df lg' h1 = (Returns (lg' ++ [msg_headers]), h1)
  /\ forall d, nth_error h1 df = Some d ->
               map normalize_label (columns d) = columns d.
Proof.
  intros Ht h1.
  assert (Hlt : df < length h) by (apply nth_error_Some; congruence).
  assert (E1 : h1 = store h df (rename_frame t)).
  { unfold h1. now rewrite (standardize_columns_block_spec h df t lg Ht). }
  assert (H1 : nth_error h1 df = Some (rename_frame t)).
  { rewrite E1. now apply nth_error_store_same. }
  split.
  - rewrite (standardize_columns_block_spec h1 df _ lg' H1).
    now rewrite rename_frame_idem, E1, store_store.
  - intros d Hd. rewrite H1 in Hd. injection Hd as <-.
    apply map_normalize_label_idem.
Qed.

(* ================================================================== *)
(** ** The demo data *)
(* ================================================================== *)

(** The numeric value of a Python int literal. *)
Variable num_of_int : Z -> Num.

(** [np.random.choice(options, size)]: item [k] is the option at the
    index that numpy's generator draws for it, an index below the number
    of options, here [pick k] reduced to one; the generator is seeded,
    its draws are taken as they come. *)
Definition choice (options : list Cell) (pick : nat -> nat) (size : nat)
  : list Cell :=
  map (fun k => nth (pick k mod length options) options (Missing NaN))
      (seq 0 size).

(** [pd.DataFrame(data)] for a dict of columns of one length: the keys
    are the labels, in their order, and row [k] holds item [k] of each. *)
Definition from_dict (data : list (string * list Cell)) : DataFrame :=
  let n := match data with
           | [] => 0
           | (_, values) :: _ => length values
           end in
  mkFrame (map fst data)
          (map (fun k => map (fun col => nth k (snd col) (Missing NaN)) data)
               (seq 0 n)).

(** [df.iloc[:n]] *)
Definition iloc_head (n : nat) (d : DataFrame) : DataFrame :=
  mkFrame (columns d) (firstn n (rows d)).

(** [pd.concat([a, b], ignore_index=True)] for frames of the same labels. *)
Definition concat (a b : DataFrame) : DataFrame :=
  mkFrame (columns a) (rows a ++ rows b).

(** The draws of the four random columns. *)
Record Draws : Type := mkDraws {
  draw_name : nat -> nat;
  draw_date : nat -> nat;
  draw_amount : nat -> nat;
  draw_status : nat -> nat
}.

(** The values the random columns are drawn from. *)
Definition customer_names : list Cell :=
  [Text "John Doe"; Text " Jane Smith "; Text "Ali  Khan";
   Text "Sarah Connor"; Text "John Doe"].
Definition date_values : list Cell :=
  [Text "2024-01-01"; Text "01/02/2024"; Text "Jan 3, 2024";
   Text "2024/01/04"; Missing PyNone].
Definition amount_values : list Cell :=
  [Number (num_of_int 100); Number (num_of_int 250); Number (num_of_int 500);
   Text "1,000"; Missing PyNone; Number (num_of_int 50)].
Definition status_values : list Cell :=
  [Text "Paid"; Text "pending"; Text "PAID"; Text "Unpaid"; Text "Error"].

Definition transaction_id (x : nat) : Cell :=
  Text ("TXN-" ++ PyStr.str_of_nat x)%string.

(** [generate_messy_data()] *)
Definition generate_messy_data (g : Draws) : DataFrame :=
  let rows_ := 50 in
  let data :=
    [ ("Transaction_ID", map transaction_id (seq 1000 rows_));
      ("Customer Name", choice customer_names (draw_name g) rows_);
      ("Date", choice date_values (draw_date g) rows_);
      ("Amount", choice amount_values (draw_amount g) rows_);
      ("Status", choice status_values (draw_status g) rows_) ] in
  let df := from_dict data in
  concat df (iloc_head 5 df).

(** Row [k] of the fifty rows before the first five are appended again. *)
Definition generated_row (g : Draws) (k : nat) : Row :=
  [ transaction_id (1000 + k);
    nth (draw_name g k mod 5) customer_names (Missing NaN);
    nth (draw_date g k mod 5) date_values (Missing NaN);
    nth (draw_amount g k mod 6) amount_values (Missing NaN);
    nth (draw_status g k mod 5) status_values (Missing NaN) ].

Definition generated_base (g : Draws) : list Row :=
  map (generated_row g) (seq 0 50).

Lemma generate_messy_data_rows g :
  rows (generate_messy_data g) = generated_base g ++ firstn 5 (generated_base g).
Proof. reflexivity. Qed.

Lemma transaction_id_inj a b : transaction_id a = transaction_id b -> a = b.
Proof. intros [= H]. now apply PyStr.str_of_nat_inj. Qed.

Lemma generated_base_NoDup g : NoDup (generated_base g).
Proof.
  apply (NoDup_map_inv (fun r => hd (Missing NaN) r)).
  unfold generated_base. rewrite map_map. simpl hd.
  apply NoDup_map_NoDup_ForallPairs; [|apply seq_NoDup].
  intros a b _ _ H. apply transaction_id_inj in H. lia.
Qed.

(** Rows that pandas takes for the same carry the same identifier. *)
Lemma generated_row_same g a b :
  same_row (generated_row g a) (generated_row g b) = true -> a = b.
Proof.
  intro H.
  pose proof (same_row_nth _ _ 0 _ _ H eq_refl eq_refl) as E.
  apply same_cell_spec in E as [E|[E _]]; [|discriminate].
  apply transaction_id_inj in E. lia.
Qed.

Lemma distinct_map {A : Type} (f : A -> Row) l :
  (forall a b, same_row (f a) (f b) = true -> a = b) ->
  NoDup l -> distinct_rows (map f l).
Proof.
  intro Hf. induction 1 as [|x l Hx _ IH]; simpl; constructor; trivial.
  apply existsb_false. intros y Hy.
  apply in_map_iff in Hy as (z & <- & Hz).
  destruct (same_row (f x) (f z)) eqn:E; trivial.
  apply Hf in E. now subst.
Qed.

Lemma generated_base_distinct g : distinct_rows (generated_base g).
Proof.
  apply distinct_map; [apply generated_row_same | apply seq_NoDup].
Qed.

(** Every status drawn is a string. *)
Lemma status_drawn i :
  exists s, nth (i mod 5) status_values (Missing NaN) = Text s.
Proof.
  assert (H : i mod 5 < 5) by (apply Nat.mod_upper_bound; discriminate).
  destruct (i mod 5) as [|[|[|[|[|n]]]]]; simpl; eauto. lia.
Qed.

Lemma generated_rows_status g : has_text 4 (rows (generate_messy_data g)).
Proof.
  destruct (status_drawn (draw_status g 0)) as [s E].
  exists (generated_row g 0), s. split.
  - rewrite generate_messy_data_rows. apply in_or_app. left.
    apply in_map_iff. exists 0. split; trivial. now left.
  - unfold generated_row. cbn [nth_error]. now rewrite E.
Qed.

(** X1. The demo data, whatever the generator draws: 55 rows under the
    five labels, one cell per label in every row; the first fifty carry
    the identifiers TXN-1000 to TXN-1049 and no two of them are equal;
    the last five are the first five again, so [duplicated] marks
    exactly five rows. *)
Theorem generate_messy_data_shape g :
  let t := generate_messy_data g in
  columns t = ["Transaction_ID"; "Customer Name"; "Date"; "Amount"; "Status"]
  /\ length (rows t) = 55
  /\ well_formed t
  /\ NoDup (firstn 50 (rows t))
  /\ skipn 50 (rows t) = firstn 5 (rows t)
  /\ map (fun r => hd (Missing NaN) r) (firstn 50 (rows t))
     = map transaction_id (seq 1000 50)
  /\ count_true (duplicated (rows t)) = 5
  /\ rows (drop_duplicates_frame t) = firstn 50 (rows t).
Proof.
  intro t.
  assert (Hk : kept_after [] (rows t) = generated_base g).
  { unfold t. rewrite generate_messy_data_rows, kept_after_again.
    apply kept_after_fix; auto. apply generated_base_distinct. }
  repeat match goal with |- _ /\ _ => split end; try reflexivity.
  - unfold well_formed. simpl. repeat constructor.
  - apply generated_base_NoDup.
  - pose proof (length_kept_after [] (rows t)) as L.
    rewrite Hk in L. unfold duplicated.
    change (length (generated_base g)) with 50 in L.
    change (length (rows t)) with 55 in L. lia.
  - rewrite rows_drop_duplicates_frame, Hk. reflexivity.
Qed.

(** X2. [clean_data] on the demo data, whatever the generator draws: it
    returns; its log is the five lines, the second being "Removed 5
    duplicate rows."; the labels come out normalized and at most fifty
    rows are left. *)
Theorem clean_generated_data g :
  exists out,
    clean_data_on (generate_messy_data g)
    = Returns (out, [msg_headers; "✅ Removed 5 duplicate rows.";
                     msg_amount; msg_status; msg_date])
    /\ columns out
       = ["transaction_id"; "customer_name"; "date"; "amount"; "status"]
    /\ length (rows out) <= 50.
Proof using str_accessor_text.
  set (t := generate_messy_data g).
  set (cols := map normalize_label (columns t)).
  exists (mkFrame cols (cleaned_rows cols (rows t))).
  assert (Hk : kept_after [] (rows t) = generated_base g).
  { unfold t. rewrite generate_messy_data_rows, kept_after_again.
    apply kept_after_fix; auto. apply generated_base_distinct. }
  split; [|split].
  - apply clean_data_on_iff. fold cols. split; [|split; trivial].
    + apply clean_passes_intro; try exact I.
      intros j Pj. injection Pj as <-. apply accessor_on_text.
      apply has_text_stage_other; [discriminate|reflexivity|].
      apply has_text_kept, generated_rows_status.
    + unfold cleaned_log. rewrite Hk. reflexivity.
  - reflexivity.
  - cbn [rows]. destruct (cleaned_rows_origin cols (rows t)) as (kept & Hs & Hf).
    rewrite (Forall2_length_le _ _ _ Hf).
    apply subsequence_length in Hs. rewrite Hk in Hs. exact Hs.
Qed.

(* ================================================================== *)
(** ** The button of the application *)
(* ================================================================== *)

(** [Series.sum()] of a column, as pandas computes it. *)
Variable series_sum : list Cell -> Num.

(** [s.sum()], read as the number the application then formats: the sum
    over a frame is a Series, which the format of a number refuses. *)
Definition sum (s : Selection) : Py Num :=
  match s with
  | OneColumn v | StrColumn v => ret (series_sum v)
  | SubFrame _ => raise TypeError
  end.

(** What pressing "Run Automation Pipeline" computes (the pause and the
    display calls left out): the cleaned frame, the log and the total
    revenue. *)
Definition on_run_button (df_raw : ref) : Py (ref * list string * Num) :=
  cleaned <- run_pipeline df_raw ;;
  let df_clean := fst cleaned in
  let logs := snd cleaned in
  s <- getitem df_clean "amount" ;;
  total_revenue <- sum s ;;
  ret (df_clean, logs, total_revenue).

Lemma getitem_at h r d name :
  nth_error h r = Some d ->
  getitem r name h
  = (match positions name (columns d) with
     | [] => Raises KeyError
     | [i] => Returns (OneColumn (column_values i (rows d)))
     | ps => Returns (SubFrame (length ps))
     end, h).
Proof.
  intro H. unfold getitem.
  erewrite bind_returns by exact (read_at h r d (fun d => d) H).
  now destruct (positions name (columns d)) as [|i [|j ps]].
Qed.

Lemma bind_run_pipeline {B : Type} h df_raw t (k : ref * list string -> Py B) :
  nth_error h df_raw = Some t ->
  bind (run_pipeline df_raw) k h = bind (clean_data (length h)) k (h ++ [t]).
Proof.
  intro Ht. unfold bind at 1. rewrite (run_pipeline_spec h df_raw t Ht).
  reflexivity.
Qed.

(** What the button does once the pipeline has returned [r]. *)
Lemma bind_getitem h (r : ref) d (lg : list string) :
  nth_error h r = Some d ->
  (s <- getitem r "amount" ;;
   total_revenue <- sum s ;;
   ret (r, lg, total_revenue)) h
  = (match positions "amount" (columns d)
           return Outcome (ref * list string * Num) with
     | [] => Raises KeyError
     | [i] => Returns (r, lg, series_sum (column_values i (rows d)))
     | _ => Raises TypeError
     end, h).
Proof.
  intro H. unfold bind. rewrite (getitem_at h r d "amount" H).
  now destruct (positions "amount" (columns d)) as [|i [|j ps]].
Qed.

(** Without copy-on-write the amounts of a result are numbers. *)
Lemma cleaned_rows_amount cols rs i :
  copy_on_write = false ->
  positions "amount" cols = [i] ->
  column_holds (fun c => exists x, c = Number x) i (cleaned_rows cols rs).
Proof.
  intros Hcow P.
  assert (Hi : nth_error cols i = Some "amount")
    by (apply positions_nth; rewrite P; now left).
  unfold cleaned_rows.
  apply (column_holds_date_other _ "amount"); [discriminate|assumption|].
  apply (column_holds_stage_other _ "status" "amount");
    [discriminate|assumption|].
  unfold stage_rows. rewrite P. apply column_holds_apply_same.
  intro c. unfold amount_in. now apply amount_cell_numeric.
Qed.

(** X8. The button on a frame [t] with columns: when [clean_data]
    raises, so does the button; when [clean_data] returns a frame without
    an amount column, the button raises KeyError at the total revenue,
    although the pipeline itself passes over the missing column;
    otherwise it returns the cleaned frame, the log and the sum of the
    amount column, whose cells are all numbers when copy-on-write is off,
    the default of pandas 2.  In every case the frames that were in the
    store, the raw frame among them, are as they were. *)
Theorem run_button h df_raw t :
  nth_error h df_raw = Some t ->
  columns t <> [] ->
  (forall r, r < length h ->
             nth_error (snd (on_run_button df_raw h)) r = nth_error h r)
  /\ match clean_table t with
     | Raises e => fst (on_run_button df_raw h) = Raises e
     | Returns (out, lg) =>
         match positions "amount" (columns out) with
         | [] => fst (on_run_button df_raw h) = Raises KeyError
         | i :: _ =>
             (exists r,
                fst (on_run_button df_raw h)
                = Returns (r, lg, series_sum (column_values i (rows out)))
                /\ nth_error (snd (on_run_button df_raw h)) r = Some out)
             /\ (copy_on_write = false ->
                 column_holds (fun c => exists x, c = Number x) i (rows out))
         end
     end.
Proof.
  intros Ht _.
  assert (Hlast : nth_error (h ++ [t]) (length h) = Some t)
    by (now rewrite nth_error_app2, Nat.sub_diag).
  unfold on_run_button. rewrite (bind_run_pipeline h df_raw t _ Ht).
  destruct (clean_data_store (h ++ [t]) (length h) t Hlast) as (tl & Es).
  rewrite store_last, <- app_assoc in Es.
  assert (Hold : forall r', r' < length h ->
                 nth_error (snd (clean_data (length h) (h ++ [t]))) r'
                 = nth_error h r').
  { intros r' Hr'. rewrite Es. now apply nth_error_app1. }
  clear Es.
  pose proof (clean_data_spec (h ++ [t]) (length h) t Hlast) as S.
  pose proof (clean_table_iff t) as Hiff.
  destruct (clean_table t) as [[out lg]|e].
  - destruct S as (r & tl' & E & Hr & _).
    destruct (proj1 (Hiff out lg) eq_refl) as ((P3 & _) & Eout & _).
    rewrite E in Hold. simpl snd in Hold.
    erewrite bind_returns by exact E. simpl fst; simpl snd.
    set (HH := store (h ++ [t]) (length h) (rename_frame t) ++ tl') in *.
    rewrite (bind_getitem HH r out lg Hr).
    assert (Hcols : columns out = map normalize_label (columns t))
      by now rewrite Eout.
    pose proof (cleaned_rows_amount (columns out) (rows t)) as Ham.
    unfold stage_passes in P3. rewrite <- Hcols in P3.
    destruct (positions "amount" (columns out)) as [|i [|j ps]];
      try contradiction; simpl.
    + split; trivial.
    + split; trivial.
      split; [exists r; auto|].
      intro Hcow. specialize (Ham i Hcow eq_refl). rewrite Eout. simpl.
      rewrite Hcols in Ham. exact Ham.
  - destruct S as (tl' & E). rewrite E in Hold. simpl snd in Hold.
    erewrite bind_raises by exact E. simpl. split; trivial.
Qed.

End Pandas.

Arguments Text {Num Day} s.
Arguments Number {Num Day} x.
Arguments Date {Num Day} d.
Arguments Missing {Num Day} k.
Arguments mkFrame {Num Day} columns rows.
Arguments columns {Num Day} d.
Arguments rows {Num Day} d.

(* ================================================================== *)
(** ** A concrete pandas *)
(* ================================================================== *)

(** The pipeline run on frames whose columns are of dtype object, with
    whole numbers for the numeric values (an int, or the float equal to
    it, printed as the int), calendar days for the timestamps, a reader
    and printer of whole numbers in decimal digits, a reader of the ISO
    form [YYYY-MM-DD] for dates, copy-on-write off, and the rule by which
    pandas grants [.str] on a column of dtype object.  pandas reads more
    texts as numbers and as dates than these readers do (["1.5"],
    ["Jan 3, 2024"]); the frames below hold none, and the first date of
    each is in the ISO form, which pandas 2 then asks of the others. *)
Module Demo.

Definition Num : Type := Z.
Definition Day : Type := (nat * nat * nat)%type.

Definition Num_eq_dec : forall x y : Num, {x = y} + {x <> y} := Z.eq_dec.

Definition Day_eq_dec (x y : Day) : {x = y} + {x <> y}.
Proof. repeat decide equality. Defined.

Definition zero : Num := 0%Z.

Definition copy_on_write : bool := false.

Definition str_of_num (x : Num) : string := NilZero.string_of_int (Z.to_int x).

(** The whole number that a text of decimal digits, or a number, is. *)
Definition read_number (c : Cell Num Day) : option Z :=
  match c with
  | Text s => option_map Z.of_int (NilZero.int_of_string s)
  | Number x => Some x
  | _ => None
  end.

(** The float64 nearest to a whole number, ties to the even mantissa
    (whole numbers past the range of float64 are not met here). *)
Definition to_float64 (z : Z) : Z :=
  let a := Z.abs z in
  if (a <? 2 ^ 53)%Z then z
  else
    let e := (Z.log2 a - 52)%Z in
    let q := Z.shiftr a e in
    let r := (a - Z.shiftl q e)%Z in
    let half := Z.shiftl 1 (e - 1) in
    let q' := if (half <? r)%Z || ((r =? half)%Z && Z.odd q)
              then (q + 1)%Z else q in
    (Z.sgn z * Z.shiftl q' e)%Z.

(** Whether [pd.to_numeric] keeps the column in whole numbers: every
    value reads as one between -2^63 and 2^64 - 1, and none is negative
    when one is past 2^63 - 1.  Otherwise the column is of float64. *)
Definition whole_column (col : list (Cell Num Day)) : bool :=
  forallb (fun c => match read_number c with
                    | Some z => ((- 2 ^ 63 <=? z) && (z <=? 2 ^ 64 - 1))%Z
                    | None => false
                    end) col
  && negb (existsb (fun c => match read_number c with
                             | Some z => (2 ^ 63 - 1 <? z)%Z
                             | None => false
                             end) col
           && existsb (fun c => match read_number c with
                                | Some z => (z <? 0)%Z
                                | None => false
                                end) col).

Definition parse_number (col : list (Cell Num Day)) (c : Cell Num Day)
  : option Num :=
  match read_number c with
  | Some z => Some (if whole_column col then z else to_float64 z)
  | None => None
  end.

Definition pad (width : nat) (n : nat) : string :=
  let digits := PyStr.str_of_nat n in
  (string_of_list_ascii (repeat "0"%char (width - String.length digits))
   ++ digits)%string.

Definition str_of_day (d : Day) : string :=
  let '(y, m, dd) := d in
  (pad 4 y ++ "-" ++ pad 2 m ++ "-" ++ pad 2 dd ++ " 00:00:00")%string.

Definition digit (c : ascii) : option nat :=
  let n := nat_of_ascii c in
  if (48 <=? n) && (n <=? 57) then Some (n - 48) else None.

Fixpoint number_of (acc : nat) (cs : list ascii) : option nat :=
  match cs with
  | [] => Some acc
  | c :: cs' => match digit c with
                | Some k => number_of (10 * acc + k) cs'
                | None => None
                end
  end.

Definition leap (y : nat) : bool :=
  ((y mod 4 =? 0) && negb (y mod 100 =? 0)) || (y mod 400 =? 0).

Definition days_in (y m : nat) : nat :=
  match m with
  | 2 => if leap y then 29 else 28
  | 4 | 6 | 9 | 11 => 30
  | _ => 31
  end.

Definition parse_iso_date (s : string) : option Day :=
  match list_ascii_of_string s with
  | [y1; y2; y3; y4; "-"%char; m1; m2; "-"%char; d1; d2] =>
      match number_of 0 [y1; y2; y3; y4], number_of 0 [m1; m2],
            number_of 0 [d1; d2] with
      | Some y, Some m, Some d =>
          if (1 <=? m) && (m <=? 12) && (1 <=? d) && (d <=? days_in y m)
          then Some (y, m, d) else None
      | _, _, _ => None
      end
  | _ => None
  end.

Definition parse_datetime (col : list (Cell Num Day)) (c : Cell Num Day)
  : option Day :=
  match c with
  | Text s => parse_iso_date s
  | _ => None
  end.

Definition is_nat (c : Cell Num Day) : bool :=
  match c with Missing NaT => true | _ => false end.

(** [.str] on a column of dtype object, by the kind pandas infers for its
    values: granted when a string is among them; refused for numbers
    alone and for timestamps alone; granted for a mixture; NaT counts as
    a value of its own beside numbers, and as a timestamp when there is
    nothing else. *)
Definition str_accessor_ok (col : list (Cell Num Day)) : bool :=
  let present := filter (fun c => negb (isna _ _ c)) col in
  if existsb (is_text _ _) present then true
  else match present with
       | [] => negb (existsb is_nat col)
       | _ => negb (forallb (is_date _ _) present)
              && (negb (forallb (is_number _ _) present) || existsb is_nat col)
       end.

Definition frame : Type := DataFrame Num Day.

Abbreviation clean_data :=
  (clean_data Num Day Num_eq_dec Day_eq_dec zero str_of_num str_of_day
     copy_on_write parse_number parse_datetime str_accessor_ok).

Abbreviation run_pipeline :=
  (run_pipeline Num Day Num_eq_dec Day_eq_dec zero str_of_num str_of_day
     copy_on_write parse_number parse_datetime str_accessor_ok).

Abbreviation clean_data_on :=
  (clean_data_on Num Day Num_eq_dec Day_eq_dec zero str_of_num str_of_day
     copy_on_write parse_number parse_datetime str_accessor_ok).

Abbreviation fix_amount_block :=
  (fix_amount_block Num Day zero str_of_num str_of_day copy_on_write
     parse_number str_accessor_ok).

Abbreviation remove_duplicates_block :=
  (remove_duplicates_block Num Day Num_eq_dec Day_eq_dec).

Definition num_of_int (z : Z) : Num := z.

(** The sum of the numbers of a column, missing values skipped. *)
Definition series_sum (v : list (Cell Num Day)) : Num :=
  fold_right (fun c acc => match c with
                           | Number x => (x + acc)%Z
                           | _ => acc
                           end) 0%Z v.

Abbreviation generate_messy_data :=
  (generate_messy_data Num Day num_of_int).

Abbreviation on_run_button :=
  (on_run_button Num Day Num_eq_dec Day_eq_dec zero str_of_num str_of_day
     copy_on_write parse_number parse_datetime str_accessor_ok series_sum).

(** Draws for the four random columns. *)
Definition draws : Draws :=
  mkDraws (fun k => k mod 5) (fun k => (3 * k + 1) mod 5)
          (fun k => (5 * k + 3) mod 6) (fun k => (7 * k) mod 5).

(** A frame in the manner of the application's demo data. *)
Definition messy : frame :=
  mkFrame ["Transaction_ID"; " Customer Name "; "Date"; "Amount"; "Status"]
    [ [Text "TXN-1000"; Text "John Doe"; Text "2024-01-01"; Text "1,000"; Text "PAID"];
      [Text "TXN-1001"; Text " Jane Smith "; Missing PyNone; Number 250%Z; Text "pending"];
      [Text "TXN-1002"; Text "Ali  Khan"; Text "2024-02-30"; Missing PyNone; Text "Unpaid"];
      [Text "TXN-1003"; Text "Sarah Connor"; Text "2024-02-29"; Text "n/a"; Text "Error"];
      [Text "TXN-1000"; Text "John Doe"; Text "2024-01-01"; Text "1,000"; Text "PAID"] ].

Definition messy_out : frame :=
  mkFrame ["transaction_id"; "customer_name"; "date"; "amount"; "status"]
    [ [Text "TXN-1000"; Text "John Doe"; Date (2024, 1, 1); Number 1000%Z; Text "Paid"];
      [Text "TXN-1003"; Text "Sarah Connor"; Date (2024, 2, 29); Number 0%Z; Text "Error"] ].

Definition messy_log : list string :=
  [msg_headers; msg_removed 1; msg_amount; msg_status; msg_date].

(** Fifty rows with the identifiers TXN-1000 to TXN-1049, and the frame
    with the first five of them appended again. *)
Definition fifty : frame :=
  mkFrame ["Transaction_ID"; "Status"]
    (map (fun k => [Text ("TXN-" ++ PyStr.str_of_nat (1000 + k))%string;
                    Text (if Nat.even k then "Paid" else "pending")])
         (seq 0 50)).

Definition fifty_five : frame :=
  mkFrame (columns fifty) (rows fifty ++ firstn 5 (rows fifty)).

(** Fifty rows that are all the same, and the frame with the first five
    of them appended again. *)
Definition alike : frame :=
  mkFrame ["Transaction_ID"; "Status"]
          (repeat [Text "TXN-1000"; Text "Paid"] 50).

Definition alike_again : frame :=
  mkFrame (columns alike) (rows alike ++ firstn 5 (rows alike)).

(** Two rows that differ in the casing of the status only. *)
Definition paid_twice : frame :=
  mkFrame ["Status"] [[Text "PAID"]; [Text "paid"]].

(** Two rows with the same amount, once as text and once as a number. *)
Definition thousand_twice : frame :=
  mkFrame ["amount"] [[Text "1,000"]; [Number 1000%Z]].

(** An amount past the whole numbers that float64 holds one by one:
    2^64 + 1, beside a text. *)
Definition big_amount : frame :=
  mkFrame ["amount"] [[Number 18446744073709551617%Z]; [Text "1,000"]].


Definition customers : frame :=
  mkFrame [" Customer Name "] [[Text "Ann"]].

Definition amounts : frame :=
  mkFrame ["amount"]
          [[Text "1,000"]; [Missing PyNone]; [Number 50%Z]; [Text "n/a"]].



(** *** The concrete routines behave as the theorems ask *)

Lemma str_accessor_text v :
  existsb (is_text Num Day) v = true -> str_accessor_ok v = true.
Proof.
  intro H. unfold str_accessor_ok.
  assert (Hp : existsb (is_text Num Day)
                 (filter (fun c => negb (isna Num Day c)) v) = true).
  { apply existsb_exists in H as (c & Hc & Ht).
    apply existsb_exists. exists c. split; trivial.
    apply filter_In. split; trivial. now destruct c. }
  now rewrite Hp.
Qed.

(** The whole numbers below 2^53 are read back from their print, in any
    column. *)
Lemma replace_comma_uint d :
  PyStr.replace "," "" (NilEmpty.string_of_uint d) = NilEmpty.string_of_uint d.
Proof. induction d; simpl; now rewrite ?IHd. Qed.

Lemma replace_comma_int d :
  PyStr.replace "," "" (NilZero.string_of_int d) = NilZero.string_of_int d.
Proof.
  destruct d as [d|d]; simpl; destruct d; simpl;
    now rewrite ?replace_comma_uint.
Qed.

Lemma read_number_str x :
  read_number (Text (PyStr.replace "," "" (str_of_num x))) = Some x.
Proof.
  unfold read_number, str_of_num. rewrite replace_comma_int.
  rewrite NilZero.isi.
  - simpl. now rewrite DecimalZ.of_to.
  - destruct x; simpl; try discriminate.
    intros [= H]. now apply Unsigned.to_uint_nonnil in H.
  - destruct x; simpl; try discriminate.
    intros [= H]. now apply Unsigned.to_uint_nonnil in H.
Qed.

Lemma parse_number_str col x :
  (Z.abs x < 2 ^ 53)%Z ->
  parse_number col (Text (PyStr.replace "," "" (str_of_num x))) = Some x.
Proof.
  intro H. unfold parse_number. rewrite read_number_str.
  unfold to_float64. apply Z.ltb_lt in H. rewrite H.
  now destruct (whole_column col).
Qed.

(** *** The blocks at work *)

Example fix_amount_block_ex :
  fix_amount_block 0 [] [amounts]
  = (Returns [msg_amount],
     [mkFrame ["amount"]
        [[Number 1000%Z]; [Number 0%Z]; [Number 50%Z]; [Number 0%Z]]]).
Proof. vm_compute. reflexivity. Qed.


(** A status column of a number, a timestamp and None has [.str], and
    comes out as a column of NaN. *)
Example fix_status_block_mixed :
  fix_status_block Num Day str_accessor_ok 0 []
    [mkFrame ["status"] [[Number 1%Z]; [Date (2024, 1, 3)]; [Missing PyNone]]]
  = (Returns [msg_status],
     [mkFrame ["status"] [[Missing NaN]; [Missing NaN]; [Missing NaN]]]).
Proof. vm_compute. reflexivity. Qed.


(** A label that occurs twice once normalized makes the block of that
    column raise, and a status column of numbers has no [.str]. *)
Example two_amount_columns :
  clean_data_on (mkFrame ["Amount"; "amount "] [[Number 1%Z; Number 2%Z]])
  = Raises AttributeError.
Proof. vm_compute. reflexivity. Qed.

Example numeric_status :
  clean_data_on (mkFrame ["status"] [[Number 1%Z]; [Number 2%Z]])
  = Raises AttributeError.
Proof. vm_compute. reflexivity. Qed.

(** In a frame of one column None and NaN are two values; beside another
    column they are one. *)
Example none_and_nan_alone :
  remove_duplicates_block 0 []
    [mkFrame ["note"] [[Missing PyNone]; [Missing NaN]; [Missing PyNone]]]
  = (Returns (1, [msg_removed 1]),
     [mkFrame ["note"] [[Missing PyNone]; [Missing NaN]; [Missing PyNone]];
      mkFrame ["note"] [[Missing PyNone]; [Missing NaN]]]).
Proof. vm_compute. reflexivity. Qed.

Example none_and_nan_beside :
  remove_duplicates_block 0 []
    [mkFrame ["id"; "note"]
       [[Number 1%Z; Missing PyNone]; [Number 1%Z; Missing NaN]]]
  = (Returns (1, [msg_removed 1]),
     [mkFrame ["id"; "note"]
        [[Number 1%Z; Missing PyNone]; [Number 1%Z; Missing NaN]];
      mkFrame ["id"; "note"] [[Number 1%Z; Missing PyNone]]]).
Proof. vm_compute. reflexivity. Qed.

(** *** The theorems at these frames *)

(** Scenarios 1, 3, 4 and 6 of the specification in one run. *)
Lemma messy_cleaned : clean_data_on messy = Returns (messy_out, messy_log).
Proof. vm_compute. reflexivity. Qed.

Lemma ascii_labels (t : frame) :
  forallb PyStr.ascii_text (columns t) = true ->
  Forall (fun name => PyStr.ascii_text name = true) (columns t).
Proof. intro H. apply Forall_forall. now apply forallb_forall. Qed.


Lemma fifty_distinct : distinct_rows Num Day Num_eq_dec Day_eq_dec (rows fifty).
Proof. apply distinct_by_kept_after. vm_compute. reflexivity. Qed.

(** [deduplication] at [fifty_five]: scenario 5 of the specification. *)
Lemma deduplication_witness :
  nth_error [fifty_five] 0 = Some fifty_five
  /\ columns fifty_five <> []
  /\ length (rows fifty_five) = 55
  /\ remove_duplicates_block 0 [] [fifty_five]
     = (Returns (1, ["✅ Removed 5 duplicate rows."]), [fifty_five; fifty])
  /\ length (rows fifty) = 50.
Proof.
  assert (Hc : columns fifty_five <> []) by discriminate.
  split; [reflexivity|]. split; [exact Hc|]. split; [reflexivity|].
  pose proof (deduplication Num Day Num_eq_dec Day_eq_dec
                [fifty_five] 0 fifty_five [] eq_refl Hc) as T.
  cbv zeta in T.
  destruct T as (E & _ & _ & _ & _ & _ & _ & _ & _ & _ & _ & _ & _ & _ & S).
  destruct (S fifty eq_refl eq_refl eq_refl fifty_distinct)
    as (Eout & Elen & Emsg).
  rewrite Emsg, Eout in E. split; [exact E | reflexivity].
Defined.

(** [stage_skipping_and_log] at [messy]. *)
Lemma stage_skipping_and_log_witness :
  clean_data_on messy = Returns (messy_out, messy_log)
  /\ messy_log = [msg_headers; msg_removed 1; msg_amount; msg_status; msg_date]
  /\ 2 <= length messy_log <= 5.
Proof.
  split; [exact messy_cleaned|]. split; [reflexivity|].
  exact (proj1 (proj2
    (stage_skipping_and_log Num Day Num_eq_dec Day_eq_dec zero str_of_num
       str_of_day copy_on_write parse_number parse_datetime str_accessor_ok
       messy messy_out messy_log messy_cleaned))).
Defined.

(** [column_preservation] at [messy]. *)
Lemma column_preservation_witness :
  clean_data_on messy = Returns (messy_out, messy_log)
  /\ columns messy_out = map normalize_label (columns messy)
  /\ length (columns messy_out) = length (columns messy).
Proof.
  split; [exact messy_cleaned|].
  pose proof (column_preservation Num Day Num_eq_dec Day_eq_dec zero
                str_of_num str_of_day copy_on_write parse_number
                parse_datetime str_accessor_ok messy messy_out messy_log
                messy_cleaned)
    as (Hc & Hl & _).
  split; assumption.
Defined.

Lemma well_formed_by_length (t : frame) :
  forallb (fun r => length r =? length (columns t)) (rows t) = true ->
  well_formed Num Day t.
Proof.
  intro H. apply Forall_forall. intros r Hr.
  apply Nat.eqb_eq. revert r Hr. now apply forallb_forall.
Qed.

(** [amount_coercion] at [amounts]: scenarios 1 and 2 of the
    specification. *)
Lemma amount_coercion_witness :
  contains "amount" (columns amounts) = true
  /\ well_formed Num Day amounts
  /\ fix_amount_block 0 [] [amounts]
     = (Returns [msg_amount],
        [mkFrame ["amount"]
           [[Number 1000%Z]; [Number 0%Z]; [Number 50%Z]; [Number 0%Z]]])
  /\ exists i,
       positions "amount" (columns amounts) = [i]
       /\ column_values Num Day i
            [[Number 1000%Z]; [Number 0%Z]; [Number 50%Z]; [Number 0%Z]]
          = [Number 1000%Z; Number 0%Z; Number 50%Z; Number 0%Z].
Proof.
  assert (W : well_formed Num Day amounts)
    by now apply well_formed_by_length.
  split; [reflexivity|]. split; [exact W|].
  split; [exact fix_amount_block_ex|].
  destruct (amount_coercion Num Day Num_eq_dec Day_eq_dec zero str_of_num
              str_of_day copy_on_write parse_number parse_datetime
              str_accessor_ok [] amounts [] _ _ eq_refl W fix_amount_block_ex)
    as (i & T).
  cbv zeta in T. destruct T as (P & _ & _ & _).
  exists i. split; [exact P|].
  injection P as <-. reflexivity.
Defined.


Lemma ascii_column (t : frame) k :
  forallb (fun r => ascii_cell Num Day (cell Num Day r k)) (rows t) = true ->
  column_holds Num Day (fun c => ascii_cell Num Day c = true) k (rows t).
Proof.
  intros H r Hr c Hc.
  rewrite forallb_forall in H. specialize (H r Hr).
  now rewrite (nth_error_cell Num Day r k c Hc) in H.
Qed.


(** [dedup_invariant] at [messy]. *)
Lemma dedup_invariant_witness :
  clean_data_on messy = Returns (messy_out, messy_log)
  /\ length (rows messy_out) <= length (rows messy).
Proof.
  split; [exact messy_cleaned|].
  exact (proj1
    (dedup_invariant Num Day Num_eq_dec Day_eq_dec zero str_of_num
       str_of_day copy_on_write parse_number parse_datetime str_accessor_ok
       messy messy_out messy_log messy_cleaned)).
Defined.

Lemma messy_out_status :
  forall j, positions "status" (columns messy_out) = [j] ->
    column_holds Num Day (fun c => ascii_cell Num Day c = true) j (rows messy_out)
    /\ str_accessor_ok
         (column_values Num Day j
            (rows (drop_duplicates_frame Num Day Num_eq_dec Day_eq_dec messy_out)))
       = true.
Proof.
  intros j P. injection P as <-. split; [now apply ascii_column|reflexivity].
Qed.

(** [rerun_on_result] at [messy]: its result is cleaned to itself. *)
Lemma rerun_on_result_witness :
  clean_data_on messy = Returns (messy_out, messy_log)
  /\ columns messy <> []
  /\ Forall (fun name => PyStr.ascii_text name = true) (columns messy)
  /\ clean_data_on messy_out
     = Returns (messy_out,
                [msg_headers; msg_removed 0; msg_amount; msg_status; msg_date]).
Proof.
  assert (Hc : columns messy <> []) by discriminate.
  split; [exact messy_cleaned|]. split; [exact Hc|].
  split; [now apply ascii_labels|].
  rewrite (proj1
    (rerun_on_result Num Day Num_eq_dec Day_eq_dec zero str_of_num
       str_of_day copy_on_write parse_number parse_datetime str_accessor_ok
       messy messy_out messy_log messy_cleaned Hc
       (ascii_labels messy eq_refl) messy_out_status)).
  vm_compute. reflexivity.
Defined.

(** [caller_table] at [customers]. *)
Lemma caller_table_witness :
  nth_error [customers] 0 = Some customers
  /\ nth_error (snd (clean_data 0 [customers])) 0
     = Some (mkFrame ["customer_name"] [[Text "Ann"]])
  /\ nth_error (snd (run_pipeline 0 [customers])) 0 = Some customers.
Proof.
  split; [reflexivity|].
  pose proof (caller_table Num Day Num_eq_dec Day_eq_dec zero str_of_num
                str_of_day copy_on_write parse_number parse_datetime
                str_accessor_ok [customers] 0 customers eq_refl)
    as (H1 & _ & H3 & _).
  split; [exact H1|]. exact (H3 0 (Nat.lt_0_succ 0)).
Defined.

(** *** Further theorems at these frames *)

(** [clean_generated_data] for the concrete routines and [draws]. *)
Lemma clean_generated_data_witness :
  (forall v, existsb (is_text Num Day) v = true -> str_accessor_ok v = true)
  /\ exists out,
       clean_data_on (generate_messy_data draws)
       = Returns (out, [msg_headers; "✅ Removed 5 duplicate rows.";
                        msg_amount; msg_status; msg_date])
       /\ columns out
          = ["transaction_id"; "customer_name"; "date"; "amount"; "status"]
       /\ length (rows out) <= 50.
Proof.
  split; [exact str_accessor_text|].
  exact (clean_generated_data Num Day Num_eq_dec Day_eq_dec zero str_of_num
           str_of_day copy_on_write parse_number parse_datetime
           str_accessor_ok str_accessor_text num_of_int draws).
Defined.

Definition two_amounts : frame :=
  mkFrame ["Amount"; "amount "] [[Number 1%Z; Number 2%Z]].

(** [role_label_collision] at [two_amounts]. *)
Lemma role_label_collision_witness :
  2 <= length (positions "amount" (map normalize_label (columns two_amounts)))
  /\ clean_data_on two_amounts = Raises AttributeError.
Proof.
  split; [apply le_n|].
  exact (proj2 (role_label_collision Num Day Num_eq_dec Day_eq_dec zero
                  str_of_num str_of_day copy_on_write parse_number
                  parse_datetime str_accessor_ok two_amounts "amount"
                  (or_introl eq_refl) (le_n 2))
               eq_refl).
Defined.

Lemma messy_status :
  forall j, positions "status" (map normalize_label (columns messy)) = [j] ->
            has_text Num Day j (rows messy).
Proof.
  intros j Pj. injection Pj as <-.
  exists [Text "TXN-1000"; Text "John Doe"; Text "2024-01-01"; Text "1,000";
          Text "PAID"], "PAID".
  split; [now left | reflexivity].
Qed.

(** [clean_data_returns] at [messy]. *)
Lemma clean_data_returns_witness :
  columns messy <> []
  /\ at_most_once "amount" (map normalize_label (columns messy))
  /\ at_most_once "status" (map normalize_label (columns messy))
  /\ at_most_once "date" (map normalize_label (columns messy))
  /\ has_text Num Day 4 (rows messy)
  /\ clean_data_on messy = Returns (messy_out, messy_log).
Proof.
  assert (Hc : columns messy <> []) by discriminate.
  split; [exact Hc|].
  split; [exact I|]. split; [exact I|]. split; [exact I|].
  split; [exact (messy_status 4 eq_refl)|].
  rewrite (clean_data_returns Num Day Num_eq_dec Day_eq_dec zero str_of_num
             str_of_day copy_on_write parse_number parse_datetime
             str_accessor_ok str_accessor_text messy Hc I I I messy_status).
  vm_compute. reflexivity.
Defined.

Definition no_rows : frame := mkFrame ["Amount"; " Status "] [].

(** [empty_frame_cleaned] at [no_rows], whose empty status column is of
    dtype object. *)
Lemma empty_frame_cleaned_witness :
  columns no_rows <> []
  /\ rows no_rows = []
  /\ str_accessor_ok [] = true
  /\ clean_data_on no_rows
     = Returns (mkFrame ["amount"; "status"] [],
                [msg_headers; msg_removed 0; msg_amount; msg_status]).
Proof.
  assert (Hc : columns no_rows <> []) by discriminate.
  split; [exact Hc|]. split; [reflexivity|]. split; [reflexivity|].
  exact (proj1 (empty_frame_cleaned Num Day Num_eq_dec Day_eq_dec zero
                  str_of_num str_of_day copy_on_write parse_number
                  parse_datetime str_accessor_ok no_rows Hc eq_refl I I I)
               (or_intror eq_refl)).
Defined.

(** [row_accounting] at [messy]: five rows, one duplicate, two rows left
    (two more went for their dates). *)
Lemma row_accounting_witness :
  clean_data_on messy = Returns (messy_out, messy_log)
  /\ length (rows messy_out) + 1 <= length (rows messy)
  /\ nth_error messy_log 1 = Some (msg_removed 1).
Proof.
  split; [exact messy_cleaned|].
  pose proof (row_accounting Num Day Num_eq_dec Day_eq_dec zero str_of_num
                str_of_day copy_on_write parse_number parse_datetime
                str_accessor_ok messy messy_out messy_log messy_cleaned)
    as (H1 & _ & H3).
  split; [exact H1 | exact H3].
Defined.

(** [run_button] at [customers], which has no amount column, and at
    [thousand_twice], which has one. *)
Lemma run_button_witness :
  nth_error [customers] 0 = Some customers
  /\ columns customers <> []
  /\ fst (on_run_button 0 [customers]) = Raises KeyError
  /\ nth_error (snd (on_run_button 0 [customers])) 0 = Some customers
  /\ fst (on_run_button 0 [thousand_twice])
     = Returns (2, [msg_headers; msg_removed 0; msg_amount], 2000%Z).
Proof.
  assert (Hc : columns customers <> []) by discriminate.
  split; [reflexivity|]. split; [exact Hc|].
  pose proof (run_button Num Day Num_eq_dec Day_eq_dec zero str_of_num
                str_of_day copy_on_write parse_number parse_datetime
                str_accessor_ok series_sum [customers] 0 customers eq_refl Hc)
    as (H1 & H2).
  split; [exact H2|]. split; [exact (H1 0 (Nat.lt_0_succ 0))|].
  vm_compute. reflexivity.
Defined.

(** [standardize_columns_twice] at [customers]. *)
Lemma standardize_columns_twice_witness :
  nth_error [customers] 0 = Some customers
  /\ standardize_columns_block Num Day 0 []
       (snd (standardize_columns_block Num Day 0 [] [customers]))
     = (Returns [msg_headers], [mkFrame ["customer_name"] [[Text "Ann"]]]).
Proof.
  split; [reflexivity|].
  exact (proj1 (standardize_columns_twice Num Day [customers] 0 customers
                  [] [] eq_refl)).
Defined.

(** *** Where the specification and the code part *)

(** Against C1 as stated: the result of cleaning [paid_twice] has two
    equal rows, and cleaning it again drops one of them. *)
Lemma idempotence_counterexample :
  clean_data_on paid_twice
  = Returns (mkFrame ["status"] [[Text "Paid"]; [Text "Paid"]],
             [msg_headers; msg_removed 0; msg_status])
  /\ clean_data_on (mkFrame ["status"] [[Text "Paid"]; [Text "Paid"]])
     = Returns (mkFrame ["status"] [[Text "Paid"]],
                [msg_headers; msg_removed 1; msg_status])
  /\ (mkFrame ["status"] [[Text "Paid"]] : frame)
     <> mkFrame ["status"] [[Text "Paid"]; [Text "Paid"]].
Proof.
  split; [vm_compute; reflexivity|]. split; [vm_compute; reflexivity|].
  discriminate.
Qed.

(** Against C3 as stated: the amount 2^64 + 1, a number, comes out as
    2^64, the float64 nearest to it. *)
Lemma amount_coercion_counterexample :
  clean_data_on big_amount
  = Returns (mkFrame ["amount"]
               [[Number 18446744073709551616%Z]; [Number 1000%Z]],
             [msg_headers; msg_removed 0; msg_amount])
  /\ (18446744073709551616 <> 18446744073709551617)%Z.
Proof. split; [vm_compute; reflexivity | discriminate]. Qed.

(** Against C4 as stated: the result of cleaning [thousand_twice] has two
    equal rows. *)
Lemma dedup_invariant_counterexample :
  clean_data_on thousand_twice
  = Returns (mkFrame ["amount"] [[Number 1000%Z]; [Number 1000%Z]],
             [msg_headers; msg_removed 0; msg_amount])
  /\ ~ NoDup [[@Number Num Day 1000%Z]; [Number 1000%Z]].
Proof.
  split; [vm_compute; reflexivity|].
  intro H. inversion H as [|? ? Hin _]. apply Hin. now left.
Qed.

(** Against C5 as stated: after [clean_data] the frame it was given has
    other labels. *)
Lemma caller_table_counterexample :
  fst (clean_data 0 [customers]) = Returns (1, [msg_headers; msg_removed 0])
  /\ nth_error (snd (clean_data 0 [customers])) 0
     = Some (mkFrame ["customer_name"] [[Text "Ann"]])
  /\ (mkFrame ["customer_name"] [[Text "Ann"]] : frame) <> customers.
Proof.
  split; [vm_compute; reflexivity|]. split; [vm_compute; reflexivity|].
  discriminate.
Qed.


(** Against C7 as stated: fifty rows that are all the same, with the
    first five of them appended again, leave one row, and the log line
    counts 54. *)
Lemma deduplication_counterexample :
  length (rows alike) = 50
  /\ rows alike_again = rows alike ++ firstn 5 (rows alike)
  /\ remove_duplicates_block 0 [] [alike_again]
     = (Returns (1, ["✅ Removed 54 duplicate rows."]),
        [alike_again;
         mkFrame ["Transaction_ID"; "Status"] [[Text "TXN-1000"; Text "Paid"]]])
  /\ length (rows (drop_duplicates_frame Num Day Num_eq_dec Day_eq_dec
                     alike_again)) <> 50.
Proof.
  split; [reflexivity|]. split; [reflexivity|].
  split; [vm_compute; reflexivity|]. vm_compute. discriminate.
Qed.

End Demo.

(* ================================================================== *)
(** ** The customer tiers of the dashboard *)
(* ================================================================== *)

(** [streamlit/app.py]: the RFM score of a customer is the sum of three
    quartile labels, and [segment_me] names the tier of a score. *)
Module Dashboard.

Local Open Scope Z_scope.

Definition gold : string := "Gold Tier (Loyal)".
Definition silver : string := "Silver Tier (Promising)".
Definition bronze : string := "Bronze Tier (Needs Attention)".

(** [segment_me(score)] *)
Definition segment_me (score : Z) : string :=
  if Z.geb score 10 then gold
  else if Z.geb score 7 then silver
  else bronze.

(** [rfm['Score']]: the labels that [pd.qcut] gives to the recency, the
    frequency and the monetary value of a customer, added up. *)
Definition rfm_score (recency frequency monetary : Z) : Z :=
  recency + frequency + monetary.

Ltac tiers :=
  unfold segment_me, rfm_score, gold, silver, bronze in *;
  repeat match goal with
         | |- context [Z.geb ?a ?b] =>
             let E := fresh in destruct (Z.geb_spec a b) as [E|E]
         | H : context [Z.geb ?a ?b] |- _ =>
             let E := fresh in destruct (Z.geb_spec a b) as [E|E]
         end;
  try discriminate; try reflexivity; try lia.

(** X9. A higher score never gives a lower tier: from a gold score
    upwards every score is gold, from a bronze score downwards every
    score is bronze, and a score above a silver one is silver or gold. *)
Theorem segment_me_monotone a b :
  a <= b ->
  (segment_me a = gold -> segment_me b = gold)
  /\ (segment_me b = bronze -> segment_me a = bronze)
  /\ (segment_me a = silver -> segment_me b = silver \/ segment_me b = gold).
Proof.
  intro H. unfold segment_me, gold, silver, bronze.
  destruct (Z.geb_spec a 10), (Z.geb_spec a 7),
    (Z.geb_spec b 10), (Z.geb_spec b 7);
    repeat split; intros; try discriminate; try lia; auto.
Qed.

(** X10. With the three labels between 1 and 4, as [pd.qcut] with four
    bins gives them, the score lies between 3 and 12; a gold customer has
    no label 1; a customer with two labels 1 is bronze whatever the
    third; and three labels 4 make a gold customer. *)
Theorem segment_of_labels r f m :
  1 <= r <= 4 -> 1 <= f <= 4 -> 1 <= m <= 4 ->
  3 <= rfm_score r f m <= 12
  /\ (segment_me (rfm_score r f m) = gold -> 2 <= r /\ 2 <= f /\ 2 <= m)
  /\ ((r = 1 /\ f = 1) \/ (r = 1 /\ m = 1) \/ (f = 1 /\ m = 1) ->
      segment_me (rfm_score r f m) = bronze)
  /\ (r = 4 -> f = 4 -> m = 4 -> segment_me (rfm_score r f m) = gold).
Proof.
  intros Hr Hf Hm. split; [unfold rfm_score; lia|].
  split; [|split]; intros; tiers.
Qed.

Lemma segment_me_monotone_witness :
  6 <= 11
  /\ (segment_me 11 = bronze -> segment_me 6 = bronze)
  /\ segment_me 6 = bronze /\ segment_me 11 = gold.
Proof.
  split; [lia|].
  split; [exact (proj1 (proj2 (segment_me_monotone 6 11 ltac:(lia))))|].
  split; reflexivity.
Defined.

Lemma segment_of_labels_witness :
  3 <= rfm_score 1 4 1 <= 12 /\ segment_me (rfm_score 1 4 1) = bronze.
Proof.
  pose proof (segment_of_labels 1 4 1 ltac:(lia) ltac:(lia) ltac:(lia))
    as (H1 & _ & H3 & _).
  split; [exact H1|]. apply H3. right. left. split; reflexivity.
Defined.

End Dashboard.
